(** * Pixelgram server: follow graph, notifications, presence and messaging

    A shallow embedding of [server.ts]: the SQLite tables the handlers touch,
    the HTTP handlers of the social graph and of the notification feed, and
    the socket.io handlers ([join], [send_message], [disconnect]) together
    with the [onlineUsers] map. *)

From stdpp Require Import gmap strings list sorting.

Local Open Scope Z_scope.

(** ** Rows of the tables

    Only the columns read or written by the modelled handlers are kept; the
    others (password, bio, image_url, ...) never influence them. *)

Record user_row := {
  u_id : Z;                (* INTEGER PRIMARY KEY AUTOINCREMENT *)
  u_username : string;     (* TEXT UNIQUE *)
  u_email : string;        (* TEXT UNIQUE *)
  u_is_private : Z;        (* INTEGER DEFAULT 0 *)
  u_is_admin : Z           (* INTEGER DEFAULT 0 *)
}.

(** [follows.status]: the handlers only ever write these two literals. *)
Inductive follow_status := pending | accepted.

(** [notifications.type]. *)
Inductive notification_type := like | comment | follow | follow_request.

Record notification_row := {
  n_id : Z;
  n_user_id : Z;           (* the recipient *)
  n_actor_id : Z;
  n_type : notification_type;
  n_post_id : option Z;
  n_is_read : Z;           (* INTEGER DEFAULT 0 *)
  n_created_at : Z         (* CURRENT_TIMESTAMP, in seconds *)
}.

Record comment_row := {
  c_id : Z;
  c_post_id : Z;
  c_user_id : Z;
  c_content : string
}.

Record message_row := {
  m_id : Z;
  m_sender_id : Z;
  m_receiver_id : Z;
  m_content : string;
  m_is_read : Z;
  m_created_at : Z
}.

#[global] Instance follow_status_eq_dec : EqDecision follow_status.
Proof. solve_decision. Defined.
#[global] Instance notification_type_eq_dec : EqDecision notification_type.
Proof. solve_decision. Defined.

(** ** The database

    [follows] has PRIMARY KEY(follower_id, following_id): a finite map from
    the pair to the status.  [likes] has UNIQUE(post_id, user_id) and its
    other columns are never read: a finite set of pairs.  [posts] maps a post
    id to its [user_id].  The tables whose rows are only ever appended are
    lists in rowid order. *)

Record db := {
  users : list user_row;
  posts : gmap Z Z;
  posts_seq : Z;
  follows : gmap (Z * Z) follow_status;
  likes : gset (Z * Z);
  comments : list comment_row;
  notifications : list notification_row;
  messages : list message_row
}.

Definition empty_db : db :=
  {| users := []; posts := ∅; posts_seq := 0; follows := ∅; likes := ∅;
     comments := []; notifications := []; messages := [] |}.

Definition with_users (d : db) (us : list user_row) : db :=
  {| users := us; posts := posts d; posts_seq := posts_seq d;
     follows := follows d; likes := likes d; comments := comments d;
     notifications := notifications d; messages := messages d |}.

Definition with_posts (d : db) (ps : gmap Z Z) (sq : Z) : db :=
  {| users := users d; posts := ps; posts_seq := sq;
     follows := follows d; likes := likes d; comments := comments d;
     notifications := notifications d; messages := messages d |}.

Definition with_follows (d : db) (fs : gmap (Z * Z) follow_status) : db :=
  {| users := users d; posts := posts d; posts_seq := posts_seq d;
     follows := fs; likes := likes d; comments := comments d;
     notifications := notifications d; messages := messages d |}.

Definition with_likes (d : db) (ls : gset (Z * Z)) : db :=
  {| users := users d; posts := posts d; posts_seq := posts_seq d;
     follows := follows d; likes := ls; comments := comments d;
     notifications := notifications d; messages := messages d |}.

Definition with_comments (d : db) (cs : list comment_row) : db :=
  {| users := users d; posts := posts d; posts_seq := posts_seq d;
     follows := follows d; likes := likes d; comments := cs;
     notifications := notifications d; messages := messages d |}.

Definition with_notifications (d : db) (ns : list notification_row) : db :=
  {| users := users d; posts := posts d; posts_seq := posts_seq d;
     follows := follows d; likes := likes d; comments := comments d;
     notifications := ns; messages := messages d |}.

Definition with_messages (d : db) (ms : list message_row) : db :=
  {| users := users d; posts := posts d; posts_seq := posts_seq d;
     follows := follows d; likes := likes d; comments := comments d;
     notifications := notifications d; messages := ms |}.

(** JavaScript truthiness of an INTEGER column value. *)
Definition truthy (z : Z) : bool := negb (z =? 0).

(** [SELECT ... FROM users WHERE id = ?] *)
Definition get_user (d : db) (id : Z) : option user_row :=
  find (λ u, bool_decide (u_id u = id)) (users d).

Definition user_exists (d : db) (id : Z) : bool :=
  match get_user d id with Some _ => true | None => false end.

(** [lastInsertRowid] of an AUTOINCREMENT table from which the modelled
    handlers never delete: one more than the number of rows. *)
Definition next_rowid {A} (rows : list A) : Z := Z.of_nat (length rows) + 1.

(** ** Statements

    A statement that SQLite refuses makes better-sqlite3 throw: the result is
    [None].  Whether FOREIGN KEY clauses are enforced is a build setting of the
    SQLite library in use, not of [server.ts]: it is the section variable
    [foreign_keys]. *)

Inductive follow_reply := reply_pending | reply_accepted | reply_unfollowed.

Inductive response :=
| json_user (u : user_row)
| json_id (id : Z)
| json_status (s : follow_reply)
| json_liked (b : bool)
| json_comment (c : comment_row) (username : string)
| json_success
| http_400
| http_500.

Definition status_reply (s : follow_status) : follow_reply :=
  match s with pending => reply_pending | accepted => reply_accepted end.

Section Server.

Variable foreign_keys : bool.

(** A reference to [users(id)] holds when enforcement is off or the row
    exists. *)
Definition fk_user (d : db) (id : Z) : bool :=
  negb foreign_keys || user_exists d id.

Definition fk_post (d : db) (id : Z) : bool :=
  negb foreign_keys || bool_decide (is_Some (posts d !! id)).

(** [INSERT INTO follows (follower_id, following_id, status) VALUES (?, ?, ?)] *)
Definition insert_follow (d : db) (follower_id following_id : Z)
    (status : follow_status) : option db :=
  match follows d !! (follower_id, following_id) with
  | Some _ => None
  | None =>
      if fk_user d follower_id && fk_user d following_id
      then Some (with_follows d (<[(follower_id, following_id) := status]> (follows d)))
      else None
  end.

(** [DELETE FROM follows WHERE follower_id = ? AND following_id = ?] *)
Definition delete_follow (d : db) (follower_id following_id : Z) : db :=
  with_follows d (delete (follower_id, following_id) (follows d)).

(** [UPDATE follows SET status = 'accepted' WHERE follower_id = ? AND following_id = ?] *)
Definition accept_follow (d : db) (follower_id following_id : Z) : db :=
  with_follows d (alter (λ _, accepted) (follower_id, following_id) (follows d)).

(** The row [INSERT INTO notifications (user_id, actor_id, type [, post_id])]
    adds: a fresh id, [is_read] at its default 0, [created_at] at the clock. *)
Definition new_notification (now : Z) (d : db) (user_id actor_id : Z)
    (type : notification_type) (post_id : option Z) : notification_row :=
  {| n_id := next_rowid (notifications d);
     n_user_id := user_id; n_actor_id := actor_id;
     n_type := type; n_post_id := post_id;
     n_is_read := 0; n_created_at := now |}.

Definition insert_notification (now : Z) (d : db) (user_id actor_id : Z)
    (type : notification_type) (post_id : option Z) : option db :=
  if fk_user d user_id && fk_user d actor_id
  then Some (with_notifications d
               (notifications d
                  ++ [new_notification now d user_id actor_id type post_id]))
  else None.

(** ** POST /api/follow *)
Definition follow_handler (now : Z) (d : db) (follower_id following_id : Z)
    : db * response :=
  match get_user d following_id with
  | None => (d, http_500)   (* targetUser.is_private on undefined, outside the try *)
  | Some targetUser =>
      let status := if truthy (u_is_private targetUser) then pending else accepted in
      let on_catch (d' : db) :=
        (delete_follow d' follower_id following_id, json_status reply_unfollowed) in
      match insert_follow d follower_id following_id status with
      | None => on_catch d
      | Some d1 =>
          let type := match status with
                      | pending => follow_request
                      | accepted => follow
                      end in
          match insert_notification now d1 following_id follower_id type None with
          | None => on_catch d1
          | Some d2 => (d2, json_status (status_reply status))
          end
      end
  end.

(** ** POST /api/follows/respond *)
Definition respond_handler (now : Z) (d : db) (follower_id following_id : Z)
    (action : string) : db * response :=
  if bool_decide (action = "accept"%string) then
    let d1 := accept_follow d follower_id following_id in
    match insert_notification now d1 follower_id following_id follow None with
    | None => (d1, http_500)
    | Some d2 => (d2, json_success)
    end
  else (delete_follow d follower_id following_id, json_success).

(** ** POST /api/auth/register

    [username] and [email] are UNIQUE; the first registered user is admin. *)
Definition insert_user (d : db) (username email : string) (is_admin : Z)
    : option (db * Z) :=
  if existsb (λ u, bool_decide (u_username u = username)
                   || bool_decide (u_email u = email)) (users d)
  then None
  else
    let id := next_rowid (users d) in
    Some (with_users d
            (users d ++ [ {| u_id := id; u_username := username; u_email := email;
                             u_is_private := 0; u_is_admin := is_admin |} ]),
          id).

Definition register_handler (d : db) (username email : string) : db * response :=
  let userCount := length (users d) in
  let isAdmin := if bool_decide (userCount = 0%nat) then 1 else 0 in
  match insert_user d username email isAdmin with
  | None => (d, http_400)
  | Some (d1, lastInsertRowid) =>
      match get_user d1 lastInsertRowid with
      | Some user => (d1, json_user user)
      | None => (d1, json_success)
      end
  end.

(** ** PUT /api/users/:id, restricted to the column [is_private] *)
Definition update_user_handler (d : db) (id : Z) (is_private : bool) : db * response :=
  (with_users d
     (map (λ u, if bool_decide (u_id u = id)
                then {| u_id := u_id u; u_username := u_username u;
                        u_email := u_email u;
                        u_is_private := if is_private then 1 else 0;
                        u_is_admin := u_is_admin u |}
                else u) (users d)),
   json_success).

(** ** POST /api/posts *)
Definition create_post_handler (d : db) (user_id : Z) : db * response :=
  if fk_user d user_id then
    let id := posts_seq d + 1 in
    (with_posts d (<[id := user_id]> (posts d)) id, json_id id)
  else (d, http_500).

(** ** POST /api/posts/:id/like *)

(** [INSERT INTO likes (post_id, user_id) VALUES (?, ?)] *)
Definition insert_like (d : db) (post_id user_id : Z) : option db :=
  if bool_decide ((post_id, user_id) ∈ likes d) then None
  else if fk_post d post_id && fk_user d user_id
       then Some (with_likes d ({[ (post_id, user_id) ]} ∪ likes d))
       else None.

(** [DELETE FROM likes WHERE post_id = ? AND user_id = ?] *)
Definition delete_like (d : db) (post_id user_id : Z) : db :=
  with_likes d (likes d ∖ {[ (post_id, user_id) ]}).

Definition like_handler (now : Z) (d : db) (post_id user_id : Z) : db * response :=
  let on_catch (d' : db) := (delete_like d' post_id user_id, json_liked false) in
  match insert_like d post_id user_id with
  | None => on_catch d
  | Some d1 =>
      match posts d1 !! post_id with
      | Some post_user_id =>
          if bool_decide (post_user_id ≠ user_id) then
            match insert_notification now d1 post_user_id user_id like (Some post_id) with
            | None => on_catch d1
            | Some d2 => (d2, json_liked true)
            end
          else (d1, json_liked true)
      | None => (d1, json_liked true)
      end
  end.

(** ** POST /api/posts/:id/comments *)

(** [INSERT INTO comments (post_id, user_id, content) VALUES (?, ?, ?)] *)
Definition insert_comment (d : db) (post_id user_id : Z) (content : string)
    : option (db * comment_row) :=
  if fk_post d post_id && fk_user d user_id then
    let c := {| c_id := next_rowid (comments d); c_post_id := post_id;
                c_user_id := user_id; c_content := content |} in
    Some (with_comments d (comments d ++ [c]), c)
  else None.

Definition comment_handler (now : Z) (d : db) (post_id user_id : Z)
    (content : string) : db * response :=
  match insert_comment d post_id user_id content with
  | None => (d, http_500)
  | Some (d1, c) =>
      let notified :=
        match posts d1 !! post_id with
        | Some post_user_id =>
            if bool_decide (post_user_id ≠ user_id)
            then insert_notification now d1 post_user_id user_id comment (Some post_id)
            else Some d1
        | None => Some d1
        end in
      match notified with
      | None => (d1, http_500)
      | Some d2 =>
          (* SELECT c.*, u.username ... JOIN users u ON c.user_id = u.id *)
          match get_user d2 user_id with
          | Some u => (d2, json_comment c (u_username u))
          | None => (d2, json_success)   (* the join is empty *)
          end
      end
  end.

(** ** POST /api/notifications/read *)
Definition mark_read_handler (d : db) (userId : Z) : db * response :=
  (with_notifications d
     (map (λ n, if bool_decide (n_user_id n = userId)
                then {| n_id := n_id n; n_user_id := n_user_id n;
                        n_actor_id := n_actor_id n; n_type := n_type n;
                        n_post_id := n_post_id n; n_is_read := 1;
                        n_created_at := n_created_at n |}
                else n) (notifications d)),
   json_success).

(** ** The HTTP interface as a transition system *)

Inductive request :=
| POST_register (username email : string)
| PUT_user (id : Z) (is_private : bool)
| POST_posts (user_id : Z)
| POST_follow (follower_id following_id : Z)
| POST_follows_respond (follower_id following_id : Z) (action : string)
| POST_like (post_id user_id : Z)
| POST_comments (post_id user_id : Z) (content : string)
| POST_notifications_read (userId : Z).

Definition handle (now : Z) (d : db) (r : request) : db * response :=
  match r with
  | POST_register username email => register_handler d username email
  | PUT_user id is_private => update_user_handler d id is_private
  | POST_posts user_id => create_post_handler d user_id
  | POST_follow a b => follow_handler now d a b
  | POST_follows_respond a b action => respond_handler now d a b action
  | POST_like p u => like_handler now d p u
  | POST_comments p u content => comment_handler now d p u content
  | POST_notifications_read u => mark_read_handler d u
  end.

(** The states the server reaches from the freshly created database; each
    request is served at some clock reading [now]. *)
Inductive reachable : db → Prop :=
| reachable_init : reachable empty_db
| reachable_step d now r : reachable d → reachable (handle now d r).1.

Definition run (d : db) (rs : list (Z * request)) : db :=
  fold_left (λ d' nr, (handle nr.1 d' nr.2).1) rs d.

(** ** GET /api/notifications/:userId

    [FROM notifications n JOIN users u ON n.actor_id = u.id WHERE n.user_id = ?]:
    the rows of the recipient whose actor exists, each with the actor's row. *)
Definition notifications_of (d : db) (userId : Z)
    : list (notification_row * user_row) :=
  omap (λ n, if bool_decide (n_user_id n = userId)
             then u ← get_user d (n_actor_id n); Some (n, u)
             else None)
       (notifications d).

(** [ORDER BY n.created_at DESC]: [newer_first x y] when [x] may precede [y].
    SQL leaves the order of rows with equal timestamps open; the sort used
    here is one admissible choice. *)
Definition newer_first (x y : notification_row * user_row) : Prop :=
  n_created_at y.1 ≤ n_created_at x.1.

#[global] Instance newer_first_dec : RelDecision newer_first.
Proof. intros x y. unfold newer_first. apply _. Defined.

Definition notifications_handler (d : db) (userId : Z)
    : list (notification_row * user_row) :=
  take 50 (merge_sort newer_first (notifications_of d userId)).

(** ** WebSockets *)

(** [onlineUsers = new Map()]: keys in insertion order. *)
Definition online_map := list (Z * string).

(** [Map.prototype.set]: an existing key keeps its position. *)
Fixpoint Map_set (k : Z) (v : string) (m : online_map) : online_map :=
  match m with
  | [] => [(k, v)]
  | (k', v') :: m' =>
      if bool_decide (k' = k) then (k, v) :: m' else (k', v') :: Map_set k v m'
  end.

(** [Map.prototype.get]; [None] is [undefined]. *)
Fixpoint Map_get (k : Z) (m : online_map) : option string :=
  match m with
  | [] => None
  | (k', v') :: m' => if bool_decide (k' = k) then Some v' else Map_get k m'
  end.

(** [Map.prototype.delete] *)
Fixpoint Map_delete (k : Z) (m : online_map) : online_map :=
  match m with
  | [] => []
  | (k', v') :: m' =>
      if bool_decide (k' = k) then m' else (k', v') :: Map_delete k m'
  end.

Record server := {
  database : db;
  onlineUsers : online_map
}.

(** The object built by [send_message] and carried by both events. *)
Record message := {
  msg_id : Z;
  msg_sender_id : Z;
  msg_receiver_id : Z;
  msg_content : string;
  msg_created_at : Z
}.

(** Payload of [send_message].  The handler destructures [sender_id],
    [receiver_id] and [content], and [...data] copies every property of the
    payload into the message object.  The payload is whatever the client
    sends: besides the three properties it may carry an [id] of its own
    ([payload_id]), which the spread then writes over the generated one.  A
    [created_at] of the payload is overwritten in turn, and any other property
    is carried along without touching the fields below. *)
Record send_data := {
  sender_id : Z;
  receiver_id : Z;
  content : string;
  payload_id : option Z
}.

Inductive presence := online | offline.

Inductive event :=
| user_status (userId : Z) (status : presence)
| new_message (m : message)
| message_sent (m : message).

(** Where an event goes: [io.emit], [io.to(id).emit], [socket.emit]. *)
Inductive target :=
| to_all
| to_room (id : string)
| to_socket (id : string).

Definition emitted := list (target * event).

(** [socket.on("join", userId)] on the socket whose id is [socket_id]. *)
Definition join_handler (socket_id : string) (userId : Z) (s : server)
    : server * emitted :=
  ({| database := database s;
      onlineUsers := Map_set userId socket_id (onlineUsers s) |},
   [(to_all, user_status userId online)]).

(** [INSERT INTO messages (sender_id, receiver_id, content) VALUES (?, ?, ?)],
    with its [lastInsertRowid]; the row's [created_at] is the database clock. *)
Definition insert_message (now : Z) (d : db) (data : send_data) : option (db * Z) :=
  if fk_user d (sender_id data) && fk_user d (receiver_id data) then
    let id := next_rowid (messages d) in
    Some (with_messages d
            (messages d ++
               [ {| m_id := id; m_sender_id := sender_id data;
                    m_receiver_id := receiver_id data; m_content := content data;
                    m_is_read := 0; m_created_at := now |} ]),
          id)
  else None.

(** Truthiness of a string: only the empty string is falsy. *)
Definition truthy_string (v : string) : bool :=
  negb (bool_decide (v = ""%string)).

(** [socket.on("send_message", data)]; [None] when the insert throws, which
    nothing catches.  [now] is the database clock that stamps the row, [date]
    the reading of [new Date()] that stamps the message object
    [{ id: info.lastInsertRowid, ...data, created_at: ... }]. *)
Definition send_message_handler (now date : Z) (socket_id : string)
    (data : send_data) (s : server) : option (server * emitted) :=
  match insert_message now (database s) data with
  | None => None
  | Some (d1, lastInsertRowid) =>
      let message := {| msg_id := match payload_id data with
                                  | Some own => own
                                  | None => lastInsertRowid
                                  end;
                        msg_sender_id := sender_id data;
                        msg_receiver_id := receiver_id data;
                        msg_content := content data;
                        msg_created_at := date |} in
      let to_receiver :=
        match Map_get (receiver_id data) (onlineUsers s) with
        | Some receiverSocketId =>
            if truthy_string receiverSocketId
            then [(to_room receiverSocketId, new_message message)]
            else []
        | None => []
        end in
      Some ({| database := d1; onlineUsers := onlineUsers s |},
            to_receiver ++ [(to_socket socket_id, message_sent message)])
  end.

(** [socket.on("disconnect")]: the loop stops at the first entry held by the
    socket. *)
Definition disconnect_handler (socket_id : string) (s : server)
    : server * emitted :=
  match find (λ e : Z * string, bool_decide (e.2 = socket_id)) (onlineUsers s) with
  | Some (userId, _) =>
      ({| database := database s;
          onlineUsers := Map_delete userId (onlineUsers s) |},
       [(to_all, user_status userId offline)])
  | None => (s, [])
  end.

End Server.

(** ** Observers of the follow graph *)

(** Modelled from the spec: [IsFollowing(follower, followee)], true only for
    accepted edges.  [server.ts] has no such endpoint; this is the row
    predicate [follower_id = ? AND following_id = ? AND status = 'accepted']
    that its counting and feed queries are built from. *)
Definition is_following (d : db) (follower_id following_id : Z) : bool :=
  bool_decide (follows d !! (follower_id, following_id) = Some accepted).

(** [SELECT COUNT( * ) FROM follows WHERE following_id = ? AND status = 'accepted'] *)
Definition followersCount (d : db) (id : Z) : nat :=
  size (filter (λ kv : (Z * Z) * follow_status, kv.1.2 = id ∧ kv.2 = accepted) (follows d)).

(** [SELECT COUNT( * ) FROM follows WHERE follower_id = ? AND status = 'accepted'] *)
Definition followingCount (d : db) (id : Z) : nat :=
  size (filter (λ kv : (Z * Z) * follow_status, kv.1.1 = id ∧ kv.2 = accepted) (follows d)).

(** A JavaScript [Map] holds each key once. *)
Definition Map_wf (m : online_map) : Prop := NoDup m.*1.

(** ** Counting pushed events *)

Definition is_new_message_to (id : string) (e : target * event) : bool :=
  match e with
  | (to_room id', new_message _) => bool_decide (id' = id)
  | _ => false
  end.

Definition is_new_message (e : target * event) : bool :=
  match e with
  | (_, new_message _) => true
  | _ => false
  end.

Definition is_message_sent_to (id : string) (e : target * event) : bool :=
  match e with
  | (to_socket id', message_sent _) => bool_decide (id' = id)
  | _ => false
  end.

Definition count_events (p : target * event → bool) (es : emitted) : nat :=
  length (List.filter p es).

(** Number of notification rows addressed to [recipient]. *)
Definition notification_count (d : db) (recipient : Z) : nat :=
  length (filter (λ n, n_user_id n = recipient) (notifications d)).

(** ** Sample states *)

Definition ann : user_row :=
  {| u_id := 1; u_username := "ann"; u_email := "ann@x";
     u_is_private := 0; u_is_admin := 1 |}.

Definition bob : user_row :=
  {| u_id := 2; u_username := "bob"; u_email := "bob@x";
     u_is_private := 0; u_is_admin := 0 |}.

Definition bob_private : user_row :=
  {| u_id := 2; u_username := "bob"; u_email := "bob@x";
     u_is_private := 1; u_is_admin := 0 |}.

(** Two public accounts and nothing else. *)
Definition two_users : db := with_users empty_db [ann; bob].

(** The same with the second account private. *)
Definition private_target : db := with_users empty_db [ann; bob_private].

(** Account 1 has asked to follow the private account 2. *)
Definition pending_request : db :=
  with_follows private_target {[ (1, 2) := pending ]}.

(** One registration, then that account follows itself. *)
Definition self_follow_trace : list (Z * request) :=
  [ (0, POST_register "ann" "ann@x"); (1, POST_follow 1 1) ].

(** Nobody has joined; account 2 has joined on socket hB. *)
Definition nobody_online : server :=
  {| database := two_users; onlineUsers := [] |}.

Definition bob_online : server :=
  {| database := two_users; onlineUsers := [(2, "hB"%string)] |}.

Definition hi : send_data :=
  {| sender_id := 1; receiver_id := 2; content := "hi"; payload_id := None |}.

Definition empty_text : send_data :=
  {| sender_id := 1; receiver_id := 2; content := ""; payload_id := None |}.

(** The same message in a payload that carries an id of its own. *)
Definition hi_with_id : send_data :=
  {| sender_id := 1; receiver_id := 2; content := "hi"; payload_id := Some 99 |}.

(** Socket h2 has joined as account 2, then account 1 has joined on socket
    h1 and again on socket h2. *)
Definition shared_socket : server :=
  (join_handler "h2" 1 (join_handler "h1" 1 (join_handler "h2" 2 nobody_online).1).1).1.



(** ** Read endpoints *)

(** [SELECT COUNT( * ) FROM posts WHERE user_id = ?] *)
Definition postsCount (d : db) (id : Z) : nat :=
  size (filter (λ kv : Z * Z, kv.2 = id) (posts d)).

(** GET /api/users/:id: the user row with its three counters; [None] is the
    404 answer. *)
Record profile := {
  p_user : user_row;
  p_postsCount : nat;
  p_followersCount : nat;
  p_followingCount : nat
}.

Definition profile_handler (d : db) (id : Z) : option profile :=
  match get_user d id with
  | None => None
  | Some user =>
      Some {| p_user := user; p_postsCount := postsCount d id;
              p_followersCount := followersCount d id;
              p_followingCount := followingCount d id |}
  end.

(** GET /api/feed/:userId, as the set of posts it returns (id and author):
    [FROM posts p JOIN users u ON p.user_id = u.id WHERE p.user_id = ? OR
    p.user_id IN (SELECT following_id FROM follows WHERE follower_id = ? AND
    status = 'accepted')].  The order of the rows is not represented. *)
Definition feed_posts (d : db) (userId : Z) : gmap Z Z :=
  filter (λ kv : Z * Z,
            is_Some (get_user d kv.2)
            ∧ (kv.2 = userId ∨ follows d !! (userId, kv.2) = Some accepted))
         (posts d).

(** [(SELECT COUNT( * ) FROM likes WHERE post_id = p.id)] *)
Definition likes_count (d : db) (post_id : Z) : nat :=
  size (filter (λ k : Z * Z, k.1 = post_id) (likes d)).

(** [(SELECT COUNT( * ) FROM likes WHERE post_id = p.id AND user_id = ?)] *)
Definition has_liked (d : db) (post_id user_id : Z) : nat :=
  size (filter (λ k : Z * Z, k.1 = post_id ∧ k.2 = user_id) (likes d)).

(** GET /api/follows/requests/:userId, as the set of rows it returns:
    [FROM follows f JOIN users u ON f.follower_id = u.id WHERE
    f.following_id = ? AND f.status = 'pending'] (the query has no ORDER BY). *)
Definition follow_requests (d : db) (userId : Z) : gmap (Z * Z) follow_status :=
  filter (λ kv : (Z * Z) * follow_status,
            kv.1.2 = userId ∧ kv.2 = pending ∧ is_Some (get_user d kv.1.1))
         (follows d).

(** ** Runs of socket events *)

(** The same socket emits [send_message] several times, each with the
    readings of the two clocks at that call; the run stops at the first
    handler that throws. *)
Fixpoint send_all (fk : bool) (socket_id : string)
    (sends : list (Z * Z * send_data)) (s : server) : option (server * emitted) :=
  match sends with
  | [] => Some (s, [])
  | (now, date, data) :: rest =>
      match send_message_handler fk now date socket_id data s with
      | None => None
      | Some (s1, es1) =>
          match send_all fk socket_id rest s1 with
          | None => None
          | Some (s2, es2) => Some (s2, es1 ++ es2)
          end
      end
  end.

(** The ids carried by the [message_sent] events, in emission order. *)
Definition sent_ids (es : emitted) : list Z :=
  omap (λ e : target * event,
          match e with
          | (_, message_sent m) => Some (msg_id m)
          | _ => None
          end) es.

(** ** Well-formed tables *)

(** What AUTOINCREMENT and the UNIQUE columns of [users] give: ids 1, 2, ...
    in rowid order, no username and no email twice. *)
Definition users_ok (d : db) : Prop :=
  u_id <$> users d = seqZ 1 (Z.of_nat (length (users d)))
  ∧ NoDup (u_username <$> users d)
  ∧ NoDup (u_email <$> users d).

(** Post ids handed out so far lie between 1 and the sequence counter. *)
Definition posts_ok (d : db) : Prop :=
  0 ≤ posts_seq d ∧ ∀ id owner, posts d !! id = Some owner → 1 ≤ id ≤ posts_seq d.

(** Every row that references [users(id)] names an existing account. *)
Definition references_ok (d : db) : Prop :=
  (∀ a b st, follows d !! (a, b) = Some st →
     user_exists d a = true ∧ user_exists d b = true)
  ∧ (∀ n, n ∈ notifications d →
       user_exists d (n_user_id n) = true ∧ user_exists d (n_actor_id n) = true)
  ∧ (∀ id owner, posts d !! id = Some owner → user_exists d owner = true).

(** * Properties *)

(** ** Basic facts about the statements *)

Lemma fk_user_of_exists fk d id :
  user_exists d id = true → fk_user fk d id = true.
Proof. unfold fk_user. intros ->. apply orb_true_r. Qed.

Lemma user_exists_of_get d id u :
  get_user d id = Some u → user_exists d id = true.
Proof. unfold user_exists. by intros ->. Qed.

Lemma insert_follow_fresh fk d a b st :
  follows d !! (a, b) = None →
  user_exists d a = true → user_exists d b = true →
  insert_follow fk d a b st
  = Some (with_follows d (<[(a, b) := st]> (follows d))).
Proof.
  intros Hnone Ha Hb. unfold insert_follow. rewrite Hnone.
  by rewrite !fk_user_of_exists.
Qed.

Lemma insert_follow_taken fk d a b st st' :
  follows d !! (a, b) = Some st' → insert_follow fk d a b st = None.
Proof. intros H. unfold insert_follow. by rewrite H. Qed.

Lemma insert_notification_ok fk now d u a ty p :
  user_exists d u = true → user_exists d a = true →
  insert_notification fk now d u a ty p
  = Some (with_notifications d
            (notifications d ++
               [new_notification now d u a ty p])).
Proof.
  intros Hu Ha. unfold insert_notification.
  by rewrite !fk_user_of_exists.
Qed.

Lemma insert_notification_inv fk now d u a ty p d' :
  insert_notification fk now d u a ty p = Some d' →
  d' = with_notifications d
         (notifications d ++
            [new_notification now d u a ty p]).
Proof.
  unfold insert_notification.
  destruct (fk_user fk d u && fk_user fk d a); congruence.
Qed.

Lemma insert_follow_inv fk d a b st d' :
  insert_follow fk d a b st = Some d' →
  follows d !! (a, b) = None
  ∧ d' = with_follows d (<[(a, b) := st]> (follows d)).
Proof.
  unfold insert_follow.
  destruct (follows d !! (a, b)); [done |].
  destruct (fk_user fk d a && fk_user fk d b); [| done].
  intros [= <-]. done.
Qed.

Lemma is_following_spec d a b :
  is_following d a b = true ↔ follows d !! (a, b) = Some accepted.
Proof. unfold is_following. apply bool_decide_eq_true. Qed.

Lemma is_following_pending d a b :
  follows d !! (a, b) = Some pending → is_following d a b = false.
Proof. intros H. unfold is_following. rewrite H. by apply bool_decide_eq_false. Qed.

Lemma is_following_absent d a b :
  follows d !! (a, b) = None → is_following d a b = false.
Proof. intros H. unfold is_following. rewrite H. by apply bool_decide_eq_false. Qed.

(** An accepted edge towards [b] counts as one more follower of [b]. *)
Lemma followersCount_insert_accepted d a b :
  follows d !! (a, b) = None →
  followersCount (with_follows d (<[(a, b) := accepted]> (follows d))) b
  = S (followersCount d b).
Proof.
  intros Hnone. unfold followersCount. simpl.
  rewrite map_filter_insert_True by done.
  apply map_size_insert_None.
  apply map_lookup_filter_None. by left.
Qed.

(** What a public target's follow-toggle does to a missing edge. *)
Lemma follow_handler_create fk now d a b ub :
  user_exists d a = true → get_user d b = Some ub →
  follows d !! (a, b) = None →
  let st := if truthy (u_is_private ub) then pending else accepted in
  let d1 := with_follows d (<[(a, b) := st]> (follows d)) in
  follow_handler fk now d a b
  = (with_notifications d1
       (notifications d ++
          [new_notification now d b a (match st with pending => follow_request | accepted => follow end) None]),
     json_status (status_reply st)).
Proof.
  intros Ha Hb Hnone st d1. unfold follow_handler. rewrite Hb.
  pose proof (user_exists_of_get _ _ _ Hb) as Hb'.
  fold st. rewrite (insert_follow_fresh fk d a b st Hnone Ha Hb'). fold d1.
  by rewrite (insert_notification_ok fk now d1 b a _ None Hb' Ha).
Qed.

(** What the follow-toggle does to an existing edge, whatever its status. *)
Lemma follow_handler_remove fk now d a b ub st :
  get_user d b = Some ub → follows d !! (a, b) = Some st →
  follow_handler fk now d a b
  = (delete_follow d a b, json_status reply_unfollowed).
Proof.
  intros Hb Hsome. unfold follow_handler. rewrite Hb.
  by rewrite (insert_follow_taken fk d a b _ st Hsome).
Qed.

(** C1: for accounts A and B with B public and no (A,B) edge, the first
    follow-toggle creates the edge with status accepted, answers accepted and
    makes IsFollowing(A,B) true (B gains one follower); the second call on the
    edge deletes it, answers unfollowed and makes IsFollowing(A,B) false. *)
Theorem follow_toggle_public fk now now' d A B uB :
  user_exists d A = true →
  get_user d B = Some uB →
  u_is_private uB = 0 →
  follows d !! (A, B) = None →
  ∃ d1 d2,
    follow_handler fk now d A B = (d1, json_status reply_accepted)
    ∧ follows d1 !! (A, B) = Some accepted
    ∧ is_following d1 A B = true
    ∧ followersCount d1 B = S (followersCount d B)
    ∧ follow_handler fk now' d1 A B = (d2, json_status reply_unfollowed)
    ∧ follows d2 !! (A, B) = None
    ∧ is_following d2 A B = false
    ∧ follows d2 = follows d.
Proof.
  intros HA HB Hpub Hnone.
  pose proof (follow_handler_create fk now d A B uB HA HB Hnone) as H1.
  rewrite Hpub in H1. simpl in H1.
  eexists _, _. split; [exact H1 |].
  assert (Hedge : follows (with_follows d (<[(A, B) := accepted]> (follows d)))
                    !! (A, B) = Some accepted)
    by (simpl; apply lookup_insert_eq).
  split; [exact Hedge |].
  split; [exact (proj2 (is_following_spec _ A B) Hedge) |].
  split; [exact (followersCount_insert_accepted d A B Hnone) |].
  split.
  { apply (follow_handler_remove fk now' _ A B uB accepted); [exact HB | exact Hedge]. }
  match goal with
  | |- follows ?d2 !! _ = _ ∧ _ =>
      assert (Hback : follows d2 = follows d)
        by (simpl; by rewrite delete_insert_id)
  end.
  split; [by rewrite Hback |].
  split; [apply is_following_absent; by rewrite Hback | exact Hback].
Qed.


Lemma follow_toggle_public_witness :
  (user_exists two_users 1 = true
   ∧ get_user two_users 2 = Some bob
   ∧ u_is_private bob = 0
   ∧ follows two_users !! (1, 2) = None)
  ∧ ∃ d1 d2,
      follow_handler true 10 two_users 1 2 = (d1, json_status reply_accepted)
      ∧ follows d1 !! (1, 2) = Some accepted
      ∧ is_following d1 1 2 = true
      ∧ followersCount d1 2 = S (followersCount two_users 2)
      ∧ follow_handler true 11 d1 1 2 = (d2, json_status reply_unfollowed)
      ∧ follows d2 !! (1, 2) = None
      ∧ is_following d2 1 2 = false
      ∧ follows d2 = follows two_users.
Proof.
  split; [repeat split; reflexivity |].
  apply (follow_toggle_public true 10 11 two_users 1 2 bob); reflexivity.
Defined.

(** Accepting turns a pending edge into an accepted one and tells the
    follower. *)
Lemma respond_accept_ok fk now d a b :
  user_exists d a = true → user_exists d b = true →
  respond_handler fk now d a b "accept"
  = (with_notifications (accept_follow d a b)
       (notifications d ++
          [new_notification now d a b follow None]),
     json_success).
Proof.
  intros Ha Hb. unfold respond_handler. simpl.
  by rewrite (insert_notification_ok fk now (accept_follow d a b) a b follow None Ha Hb).
Qed.

(** C7: for accounts A and B with B private and no (A,B) edge, the
    follow-toggle creates a pending edge and answers pending; in any state
    where the edge is pending IsFollowing(A,B) is false, and there the accept
    decision makes the edge accepted and IsFollowing(A,B) true. *)
Theorem follow_private_then_accept fk now d A B uB :
  user_exists d A = true →
  get_user d B = Some uB →
  u_is_private uB ≠ 0 →
  follows d !! (A, B) = None →
  (∃ d1,
     follow_handler fk now d A B = (d1, json_status reply_pending)
     ∧ follows d1 !! (A, B) = Some pending
     ∧ is_following d1 A B = false
     ∧ users d1 = users d)
  ∧ ∀ now' d',
      follows d' !! (A, B) = Some pending →
      user_exists d' A = true → user_exists d' B = true →
      is_following d' A B = false
      ∧ ∃ d2,
          respond_handler fk now' d' A B "accept" = (d2, json_success)
          ∧ follows d2 !! (A, B) = Some accepted
          ∧ is_following d2 A B = true.
Proof.
  intros HA HB Hpriv Hnone. split.
  - pose proof (follow_handler_create fk now d A B uB HA HB Hnone) as H1.
    assert (Ht : truthy (u_is_private uB) = true).
    { unfold truthy. apply negb_true_iff. by apply Z.eqb_neq. }
    rewrite Ht in H1. simpl in H1.
    eexists. split; [exact H1 |].
    assert (Hedge : follows (with_follows d (<[(A, B) := pending]> (follows d)))
                      !! (A, B) = Some pending)
      by (simpl; apply lookup_insert_eq).
    split; [exact Hedge |].
    split; [exact (is_following_pending _ A B Hedge) | done].
  - intros now' d' Hpend HA' HB'.
    split; [exact (is_following_pending d' A B Hpend) |].
    eexists. split; [exact (respond_accept_ok fk now' d' A B HA' HB') |].
    assert (Hedge : follows (accept_follow d' A B) !! (A, B) = Some accepted).
    { simpl. rewrite lookup_alter_eq, Hpend. done. }
    split; [exact Hedge |].
    exact (proj2 (is_following_spec _ A B) Hedge).
Qed.

Lemma follow_private_then_accept_witness :
  (user_exists private_target 1 = true
   ∧ get_user private_target 2 = Some bob_private
   ∧ u_is_private bob_private ≠ 0
   ∧ follows private_target !! (1, 2) = None)
  ∧ (∃ d1,
       follow_handler true 10 private_target 1 2 = (d1, json_status reply_pending)
       ∧ follows d1 !! (1, 2) = Some pending
       ∧ is_following d1 1 2 = false
       ∧ users d1 = users private_target)
  ∧ ∀ now' d',
      follows d' !! (1, 2) = Some pending →
      user_exists d' 1 = true → user_exists d' 2 = true →
      is_following d' 1 2 = false
      ∧ ∃ d2,
          respond_handler true now' d' 1 2 "accept" = (d2, json_success)
          ∧ follows d2 !! (1, 2) = Some accepted
          ∧ is_following d2 1 2 = true.
Proof.
  split; [repeat split; try reflexivity; simpl; lia |].
  apply (follow_private_then_accept true 10 private_target 1 2 bob_private);
    try reflexivity; simpl; lia.
Defined.

(** ** Reachable states *)

Lemma reachable_run fk d rs : reachable fk d → reachable fk (run fk d rs).
Proof.
  revert d. induction rs as [| [now r] rs IH]; intros d Hd; [exact Hd |].
  simpl. apply IH. by apply reachable_step.
Qed.

(** C4 (as stated, refuted): after one registration the account follows
    itself; the request is answered accepted and the edge (1,1) is stored, in a
    state the server reaches from the empty database. *)
Lemma self_follow_is_stored :
  reachable true (run true empty_db self_follow_trace)
  ∧ (follow_handler true 1 (run true empty_db [(0, POST_register "ann" "ann@x")]) 1 1).2
    = json_status reply_accepted
  ∧ follows (run true empty_db self_follow_trace) !! (1, 1) = Some accepted
  ∧ ¬ (∀ a, follows (run true empty_db self_follow_trace) !! (a, a) = None).
Proof.
  split; [apply reachable_run, reachable_init |].
  split; [reflexivity |].
  assert (H : follows (run true empty_db self_follow_trace) !! (1, 1) = Some accepted)
    by reflexivity.
  split; [exact H |].
  intros Hall. specialize (Hall 1). rewrite H in Hall. discriminate.
Qed.

(** C4 (amended): a follow request whose follower equals its followee is
    treated like any other: for an account A with no (A,A) edge it stores the
    edge (A,A), accepted when A is public and pending when A is private, and
    answers with that status. *)
Theorem self_follow_creates_edge fk now d A uA :
  get_user d A = Some uA →
  follows d !! (A, A) = None →
  let st := if truthy (u_is_private uA) then pending else accepted in
  ∃ d1,
    follow_handler fk now d A A = (d1, json_status (status_reply st))
    ∧ follows d1 !! (A, A) = Some st.
Proof.
  intros HA Hnone st.
  pose proof (follow_handler_create fk now d A A uA
                (user_exists_of_get _ _ _ HA) HA Hnone) as H1.
  simpl in H1. fold st in H1.
  eexists. split; [exact H1 |]. simpl. apply lookup_insert_eq.
Qed.

Lemma self_follow_creates_edge_witness :
  (get_user two_users 1 = Some ann ∧ follows two_users !! (1, 1) = None)
  ∧ ∃ d1,
      follow_handler true 3 two_users 1 1 = (d1, json_status reply_accepted)
      ∧ follows d1 !! (1, 1) = Some accepted.
Proof.
  split; [split; reflexivity |].
  apply (self_follow_creates_edge true 3 two_users 1 ann); reflexivity.
Defined.

(** ** Notifications written by the graph transitions *)



(** ** Responding to a follow request *)

(** C8 (as stated, refuted): accepting a request that was never made
    (no edge from 1 to 2) leaves the follow table alone but still writes a
    notification. *)
Lemma accept_without_request_notifies :
  follows two_users !! (1, 2) = None
  ∧ follows (respond_handler true 7 two_users 1 2 "accept").1 = follows two_users
  ∧ notifications two_users = []
  ∧ notifications (respond_handler true 7 two_users 1 2 "accept").1
    = [new_notification 7 two_users 1 2 follow None]
  ∧ notifications (respond_handler true 7 two_users 1 2 "accept").1
    ≠ notifications two_users.
Proof.
  split; [reflexivity |]. split; [reflexivity |]. split; [reflexivity |].
  split; [reflexivity |]. discriminate.
Qed.

(** C8 (amended): the accept decision turns a pending (follower, followee)
    edge into an accepted one and leaves the follow table unchanged when the
    edge does not exist or is not pending; any other decision, reject
    included, deletes the edge. *)
Theorem respond_to_request_edges fk now d a b action :
  follows (respond_handler fk now d a b "accept").1
  = match follows d !! (a, b) with
    | Some pending => <[(a, b) := accepted]> (follows d)
    | _ => follows d
    end
  ∧ (follows d !! (a, b) = Some pending →
     follows (respond_handler fk now d a b "accept").1 !! (a, b) = Some accepted)
  ∧ (action ≠ "accept"%string →
     follows (respond_handler fk now d a b action).1 = delete (a, b) (follows d)
     ∧ follows (respond_handler fk now d a b action).1 !! (a, b) = None
     ∧ notifications (respond_handler fk now d a b action).1 = notifications d).
Proof.
  assert (Hacc : follows (respond_handler fk now d a b "accept").1
                 = alter (λ _, accepted) (a, b) (follows d)).
  { unfold respond_handler. simpl.
    destruct (insert_notification fk now _ a b follow None) as [d2 |] eqn:Hn;
      [| done].
    by apply insert_notification_inv in Hn as ->. }
  split; [| split].
  - rewrite Hacc. destruct (follows d !! (a, b)) as [[|] |] eqn:He.
    + apply map_eq. intros k. rewrite lookup_alter, lookup_insert.
      destruct (decide ((a, b) = k)); [by rewrite He | done].
    + apply alter_id. intros x Hx. congruence.
    + by apply alter_id'.
  - intros He. rewrite Hacc, lookup_alter_eq, He. done.
  - intros Hne. unfold respond_handler.
    rewrite bool_decide_eq_false_2 by done. simpl.
    split; [done |]. split; [apply lookup_delete_eq | done].
Qed.

Lemma respond_to_request_edges_witness :
  (follows pending_request !! (1, 2) = Some pending ∧ "reject"%string ≠ "accept"%string)
  ∧ follows (respond_handler true 9 pending_request 1 2 "accept").1 !! (1, 2)
    = Some accepted
  ∧ follows (respond_handler true 9 pending_request 1 2 "reject").1 !! (1, 2) = None.
Proof.
  split; [split; [reflexivity | discriminate] |].
  pose proof (respond_to_request_edges true 9 pending_request 1 2 "reject")
    as (_ & Hacc & Hrej).
  split; [apply Hacc; reflexivity |].
  apply Hrej. discriminate.
Defined.

(** ** Notification counts *)

Lemma notification_count_snoc d n r :
  notification_count (with_notifications d (notifications d ++ [n])) r
  = (notification_count d r + (if bool_decide (n_user_id n = r) then 1 else 0))%nat.
Proof.
  unfold notification_count. simpl.
  rewrite filter_app, length_app. f_equal.
  rewrite filter_cons, filter_nil.
  case_bool_decide; case_decide; done.
Qed.

Lemma insert_like_fresh fk d p u owner :
  (p, u) ∉ likes d → posts d !! p = Some owner → user_exists d u = true →
  insert_like fk d p u = Some (with_likes d ({[ (p, u) ]} ∪ likes d)).
Proof.
  intros Hnew Hpost Hu. unfold insert_like.
  rewrite bool_decide_eq_false_2 by done.
  unfold fk_post. rewrite Hpost, (fk_user_of_exists fk d u Hu).
  rewrite bool_decide_eq_true_2 by eauto. by rewrite orb_true_r.
Qed.

(** A like of somebody else's post adds one unread notification for the
    post's owner. *)
Lemma like_notifies_owner fk now d p u owner :
  (p, u) ∉ likes d → posts d !! p = Some owner →
  user_exists d u = true → user_exists d owner = true →
  owner ≠ u →
  like_handler fk now d p u
  = (with_notifications (with_likes d ({[ (p, u) ]} ∪ likes d))
       (notifications d ++ [new_notification now d owner u like (Some p)]),
     json_liked true)
  ∧ notification_count (like_handler fk now d p u).1 owner
    = S (notification_count d owner).
Proof.
  intros Hnew Hpost Hu Ho Hne.
  assert (H : like_handler fk now d p u
              = (with_notifications (with_likes d ({[ (p, u) ]} ∪ likes d))
                   (notifications d ++ [new_notification now d owner u like (Some p)]),
                 json_liked true)).
  { unfold like_handler. rewrite (insert_like_fresh fk d p u owner) by done.
    simpl. rewrite Hpost. rewrite bool_decide_eq_true_2 by done.
    by rewrite (insert_notification_ok fk now (with_likes d _) owner u like (Some p) Ho Hu). }
  split; [exact H |]. rewrite H. simpl.
  pose proof (notification_count_snoc (with_likes d ({[ (p, u) ]} ∪ likes d))
                (new_notification now d owner u like (Some p)) owner) as Hc.
  simpl in Hc. rewrite Hc. rewrite bool_decide_eq_true_2 by done.
  unfold notification_count. simpl. lia.
Qed.

(** The like handler skips the notification when the post is the actor's
    own. *)
Lemma like_own_post_is_silent fk now d p u :
  posts d !! p = Some u →
  notifications (like_handler fk now d p u).1 = notifications d.
Proof.
  intros Hpost. unfold like_handler.
  destruct (insert_like fk d p u) as [d1 |] eqn:Hins; [| done].
  assert (d1 = with_likes d ({[ (p, u) ]} ∪ likes d)) as ->.
  { unfold insert_like in Hins. case_bool_decide; [done |].
    destruct (fk_post fk d p && fk_user fk d u); congruence. }
  simpl. rewrite Hpost. by rewrite bool_decide_eq_false_2 by naive_solver.
Qed.

(** So does the comment handler. *)
Lemma comment_own_post_is_silent fk now d p u c :
  posts d !! p = Some u →
  notifications (comment_handler fk now d p u c).1 = notifications d.
Proof.
  intros Hpost. unfold comment_handler.
  destruct (insert_comment fk d p u c) as [[d1 row] |] eqn:Hins; [| done].
  assert (d1 = with_comments d (comments d ++ [row])) as ->.
  { unfold insert_comment in Hins.
    destruct (fk_post fk d p && fk_user fk d u); congruence. }
  simpl. rewrite Hpost. rewrite bool_decide_eq_false_2 by naive_solver.
  by destruct (get_user _ u).
Qed.

(** A comment on somebody else's post adds one unread notification for the
    owner, every time. *)
Lemma comment_notifies_owner fk now d p u owner c :
  posts d !! p = Some owner →
  user_exists d u = true → user_exists d owner = true →
  owner ≠ u →
  notifications (comment_handler fk now d p u c).1
  = notifications d ++ [new_notification now d owner u comment (Some p)]
  ∧ notification_count (comment_handler fk now d p u c).1 owner
    = S (notification_count d owner).
Proof.
  intros Hpost Hu Ho Hne.
  assert (H : notifications (comment_handler fk now d p u c).1
              = notifications d ++ [new_notification now d owner u comment (Some p)]).
  { unfold comment_handler, insert_comment, fk_post.
    rewrite Hpost, (fk_user_of_exists fk d u Hu).
    rewrite bool_decide_eq_true_2 by eauto. rewrite orb_true_r. simpl.
    rewrite Hpost. rewrite bool_decide_eq_true_2 by done.
    rewrite (insert_notification_ok fk now (with_comments d _) owner u comment (Some p) Ho Hu).
    by destruct (get_user _ u). }
  split; [exact H |].
  unfold notification_count. rewrite H.
  rewrite filter_app, length_app, filter_cons, filter_nil.
  case_decide; [simpl; lia | done].
Qed.

(** C9 (the code at the failing input): account 1 follows itself; the
    recipient and the actor of the event are the same account, and yet its
    notification count goes from 0 to 1. *)
Lemma self_follow_is_notified :
  notification_count two_users 1 = 0%nat
  ∧ notifications (follow_handler true 3 two_users 1 1).1
    = [new_notification 3 two_users 1 1 follow None]
  ∧ n_user_id (new_notification 3 two_users 1 1 follow None)
    = n_actor_id (new_notification 3 two_users 1 1 follow None)
  ∧ notification_count (follow_handler true 3 two_users 1 1).1 1 = 1%nat.
Proof. repeat split; reflexivity. Qed.

(** ** Message delivery *)

Lemma insert_message_ok fk now d data :
  user_exists d (sender_id data) = true →
  user_exists d (receiver_id data) = true →
  insert_message fk now d data
  = Some (with_messages d
            (messages d ++
               [ {| m_id := next_rowid (messages d); m_sender_id := sender_id data;
                    m_receiver_id := receiver_id data; m_content := content data;
                    m_is_read := 0; m_created_at := now |} ]),
          next_rowid (messages d)).
Proof.
  intros Hs Hr. unfold insert_message. by rewrite !fk_user_of_exists.
Qed.

(** C2 (as stated, refuted): the payload carries an id of its own.  The row
    is persisted under the generated id 1, but both events carry the payload's
    id 99: the spread in [{ id: info.lastInsertRowid, ...data }] writes it over
    the generated one. *)
Lemma payload_id_replaces_generated_id :
  send_message_handler true 20 21 "hA" hi_with_id bob_online
  = Some ({| database :=
               with_messages two_users
                 [ {| m_id := 1; m_sender_id := 1; m_receiver_id := 2;
                      m_content := "hi"; m_is_read := 0; m_created_at := 20 |} ];
             onlineUsers := [(2, "hB"%string)] |},
          [ (to_room "hB",
             new_message {| msg_id := 99; msg_sender_id := 1; msg_receiver_id := 2;
                            msg_content := "hi"; msg_created_at := 21 |});
            (to_socket "hA",
             message_sent {| msg_id := 99; msg_sender_id := 1; msg_receiver_id := 2;
                             msg_content := "hi"; msg_created_at := 21 |}) ])
  ∧ (99 : Z) ≠ 1.
Proof. split; [reflexivity | discriminate]. Qed.

(** C2 (amended): for a send_message between two accounts, the handler
    persists one message row under the generated id and pushes exactly one
    message_sent to the sender's own socket; when the receiver has a registered
    socket hB it also pushes exactly one new_message, to hB, carrying the same
    message object (same content, same id); when the receiver has no
    registered socket it pushes no new_message at all.  The id the events carry
    is the generated id of the persisted row, unless the payload has an id of
    its own, which then takes its place in both events. *)
Theorem send_message_delivery fk now date sock data s :
  user_exists (database s) (sender_id data) = true →
  user_exists (database s) (receiver_id data) = true →
  let id := next_rowid (messages (database s)) in
  let message := {| msg_id := match payload_id data with
                              | Some own => own
                              | None => id
                              end;
                    msg_sender_id := sender_id data;
                    msg_receiver_id := receiver_id data;
                    msg_content := content data; msg_created_at := date |} in
  ∃ s' es,
    send_message_handler fk now date sock data s = Some (s', es)
    ∧ messages (database s')
      = messages (database s) ++
          [ {| m_id := id; m_sender_id := sender_id data;
               m_receiver_id := receiver_id data; m_content := content data;
               m_is_read := 0; m_created_at := now |} ]
    ∧ onlineUsers s' = onlineUsers s
    ∧ count_events (is_message_sent_to sock) es = 1%nat
    ∧ (payload_id data = None → msg_id message = id)
    ∧ match Map_get (receiver_id data) (onlineUsers s) with
      | Some hB =>
          hB ≠ ""%string →
          es = [ (to_room hB, new_message message);
                 (to_socket sock, message_sent message) ]
          ∧ count_events (is_new_message_to hB) es = 1%nat
          ∧ count_events is_new_message es = 1%nat
      | None =>
          es = [ (to_socket sock, message_sent message) ]
          ∧ count_events is_new_message es = 0%nat
      end.
Proof.
  intros Hs Hr id message. unfold send_message_handler.
  rewrite (insert_message_ok fk now (database s) data Hs Hr).
  fold id. fold message.
  eexists _, _. split; [reflexivity |].
  split; [reflexivity |]. split; [reflexivity |].
  assert (Hsent : ∀ pre,
            (∀ e, e ∈ pre → is_message_sent_to sock e = false) →
            count_events (is_message_sent_to sock)
              (pre ++ [(to_socket sock, message_sent message)]) = 1%nat).
  { intros pre Hpre. unfold count_events.
    rewrite List.filter_app, length_app. simpl.
    rewrite bool_decide_eq_true_2 by done. simpl.
    assert (List.filter (is_message_sent_to sock) pre = []) as ->; [| done].
    induction pre as [| e pre IH]; [done |]. simpl.
    rewrite (Hpre e) by left. apply IH. intros e' He'. apply Hpre. by right. }
  assert (Hid : payload_id data = None → msg_id message = id).
  { intros Hnone. subst message. simpl. by rewrite Hnone. }
  destruct (Map_get (receiver_id data) (onlineUsers s)) as [hB |].
  - destruct (truthy_string hB) eqn:Ht.
    + split.
      { apply Hsent. intros e He. apply list_elem_of_singleton in He. by subst e. }
      split; [exact Hid |].
      intros _. split; [reflexivity |].
      unfold count_events. simpl. by rewrite bool_decide_eq_true_2.
    + split; [apply Hsent; intros e He; by apply elem_of_nil in He |].
      split; [exact Hid |].
      intros Hne. unfold truthy_string in Ht.
      apply negb_false_iff, bool_decide_eq_true in Ht. contradiction.
  - split; [apply Hsent; intros e He; by apply elem_of_nil in He |].
    split; [exact Hid |]. split; reflexivity.
Qed.

Lemma send_message_delivery_witness :
  (user_exists (database bob_online) (sender_id hi) = true
   ∧ user_exists (database bob_online) (receiver_id hi) = true)
  ∧ ∃ s' es,
      send_message_handler true 20 21 "hA" hi bob_online = Some (s', es)
      ∧ messages (database s')
        = [ {| m_id := 1; m_sender_id := 1; m_receiver_id := 2; m_content := "hi";
               m_is_read := 0; m_created_at := 20 |} ]
      ∧ onlineUsers s' = onlineUsers bob_online
      ∧ count_events (is_message_sent_to "hA") es = 1%nat
      ∧ (payload_id hi = None → (1 : Z) = 1)
      ∧ ("hB"%string ≠ ""%string →
         es = [ (to_room "hB",
                 new_message {| msg_id := 1; msg_sender_id := 1; msg_receiver_id := 2;
                                msg_content := "hi"; msg_created_at := 21 |});
                (to_socket "hA",
                 message_sent {| msg_id := 1; msg_sender_id := 1; msg_receiver_id := 2;
                                 msg_content := "hi"; msg_created_at := 21 |}) ]
         ∧ count_events (is_new_message_to "hB") es = 1%nat
         ∧ count_events is_new_message es = 1%nat).
Proof.
  split; [split; reflexivity |].
  apply (send_message_delivery true 20 21 "hA" hi bob_online); reflexivity.
Defined.

(** C5 (as stated, refuted): a send_message with empty content is not
    rejected; the row is persisted and message_sent is emitted. *)
Lemma empty_content_is_persisted :
  content empty_text = ""%string
  ∧ messages (database nobody_online) = []
  ∧ send_message_handler true 20 21 "hA" empty_text nobody_online
    = Some ({| database :=
                 with_messages two_users
                   [ {| m_id := 1; m_sender_id := 1; m_receiver_id := 2;
                        m_content := ""; m_is_read := 0; m_created_at := 20 |} ];
               onlineUsers := [] |},
            [ (to_socket "hA",
               message_sent {| msg_id := 1; msg_sender_id := 1; msg_receiver_id := 2;
                               msg_content := ""; msg_created_at := 21 |}) ]).
Proof. repeat split; reflexivity. Qed.

(** Membership of the events a successful send emits. *)
Lemma send_message_handler_emits fk now date sock data s s' es :
  send_message_handler fk now date sock data s = Some (s', es) →
  let message := {| msg_id := match payload_id data with
                              | Some own => own
                              | None => next_rowid (messages (database s))
                              end;
                    msg_sender_id := sender_id data;
                    msg_receiver_id := receiver_id data;
                    msg_content := content data; msg_created_at := date |} in
  (to_socket sock, message_sent message) ∈ es
  ∧ (∀ hB, Map_get (receiver_id data) (onlineUsers s) = Some hB →
           hB ≠ ""%string → (to_room hB, new_message message) ∈ es)
  ∧ (∀ e, e ∈ es →
          e = (to_socket sock, message_sent message)
          ∨ ∃ hB, Map_get (receiver_id data) (onlineUsers s) = Some hB
                  ∧ hB ≠ ""%string ∧ e = (to_room hB, new_message message)).
Proof.
  unfold send_message_handler, insert_message.
  destruct (fk_user fk (database s) (sender_id data)
            && fk_user fk (database s) (receiver_id data)); [| done].
  intros Hrun. simpl in Hrun. injection Hrun as <- <-.
  split; [apply elem_of_app; right; left |].
  split.
  - intros hB -> Hne. unfold truthy_string.
    rewrite bool_decide_eq_false_2 by done. simpl. left.
  - intros e [He | He]%elem_of_app.
    + right. destruct (Map_get (receiver_id data) (onlineUsers s)) as [hB |];
        [| by apply elem_of_nil in He].
      destruct (truthy_string hB) eqn:Ht; [| by apply elem_of_nil in He].
      apply list_elem_of_singleton in He. exists hB.
      split; [done |]. split; [| done].
      intros ->. unfold truthy_string in Ht. by rewrite bool_decide_eq_true_2 in Ht.
    + left. by apply list_elem_of_singleton in He.
Qed.

(** C5 (amended): the handler does not validate the content; a send_message
    with empty content between two accounts is persisted as a row with empty
    content, message_sent carrying that message (empty content) is emitted to
    the sender's socket and new_message carrying it to the socket of a
    registered receiver, as for any other content; every event emitted is one
    of these two, so no error is reported. *)
Theorem empty_content_is_sent fk now date sock data s :
  content data = ""%string →
  user_exists (database s) (sender_id data) = true →
  user_exists (database s) (receiver_id data) = true →
  ∃ s' es row m,
    send_message_handler fk now date sock data s = Some (s', es)
    ∧ messages (database s') = messages (database s) ++ [row]
    ∧ m_content row = ""%string
    ∧ m_sender_id row = sender_id data
    ∧ m_receiver_id row = receiver_id data
    ∧ msg_content m = ""%string
    ∧ (to_socket sock, message_sent m) ∈ es
    ∧ (∀ hB, Map_get (receiver_id data) (onlineUsers s) = Some hB →
             hB ≠ ""%string → (to_room hB, new_message m) ∈ es)
    ∧ (∀ e, e ∈ es → e.2 = message_sent m ∨ e.2 = new_message m).
Proof.
  intros Hempty Hs Hr.
  destruct (send_message_handler fk now date sock data s) as [[s' es] |] eqn:Hrun.
  - pose proof (send_message_handler_emits fk now date sock data s s' es Hrun)
      as (Hsent & Hnew & Hall).
    assert (Hrows : messages (database s')
                    = messages (database s) ++
                        [ {| m_id := next_rowid (messages (database s));
                             m_sender_id := sender_id data;
                             m_receiver_id := receiver_id data;
                             m_content := content data; m_is_read := 0;
                             m_created_at := now |} ]).
    { revert Hrun. unfold send_message_handler.
      rewrite (insert_message_ok fk now (database s) data Hs Hr).
      by intros [= <- _]. }
    exists s', es,
      {| m_id := next_rowid (messages (database s)); m_sender_id := sender_id data;
         m_receiver_id := receiver_id data; m_content := content data;
         m_is_read := 0; m_created_at := now |},
      {| msg_id := match payload_id data with
                   | Some own => own
                   | None => next_rowid (messages (database s))
                   end;
         msg_sender_id := sender_id data; msg_receiver_id := receiver_id data;
         msg_content := content data; msg_created_at := date |}.
    split; [reflexivity |]. split; [exact Hrows |]. simpl.
    split; [exact Hempty |]. split; [reflexivity |]. split; [reflexivity |].
    split; [exact Hempty |]. split; [exact Hsent |]. split; [exact Hnew |].
    intros e He. destruct (Hall e He) as [-> | (hB & _ & _ & ->)]; [by left | by right].
  - exfalso. revert Hrun. unfold send_message_handler.
    by rewrite (insert_message_ok fk now (database s) data Hs Hr).
Qed.

Lemma empty_content_is_sent_witness :
  (content empty_text = ""%string
   ∧ user_exists (database nobody_online) (sender_id empty_text) = true
   ∧ user_exists (database nobody_online) (receiver_id empty_text) = true)
  ∧ ∃ s' es row m,
      send_message_handler true 20 21 "hA" empty_text nobody_online = Some (s', es)
      ∧ messages (database s') = messages (database nobody_online) ++ [row]
      ∧ m_content row = ""%string
      ∧ msg_content m = ""%string
      ∧ (to_socket "hA", message_sent m) ∈ es.
Proof.
  split; [repeat split; reflexivity |].
  destruct (empty_content_is_sent true 20 21 "hA" empty_text nobody_online
              eq_refl eq_refl eq_refl)
    as (s' & es & row & m & Hrun & Hrows & Hrc & _ & _ & Hmc & Hsent & _).
  exists s', es, row, m. repeat split; assumption.
Defined.

(** ** The presence map *)

Lemma Map_get_set_eq k v m : Map_get k (Map_set k v m) = Some v.
Proof.
  induction m as [| [k' v'] m IH]; simpl.
  - by rewrite bool_decide_eq_true_2.
  - case_bool_decide as Hk; simpl.
    + by rewrite bool_decide_eq_true_2.
    + by rewrite bool_decide_eq_false_2.
Qed.

Lemma Map_set_set k v v' m : Map_set k v' (Map_set k v m) = Map_set k v' m.
Proof.
  induction m as [| [k0 v0] m IH]; simpl.
  - by rewrite bool_decide_eq_true_2.
  - case_bool_decide as Hk; simpl.
    + by rewrite bool_decide_eq_true_2.
    + rewrite bool_decide_eq_false_2 by done. by rewrite IH.
Qed.

Lemma elem_of_Map_set u h k v m :
  (u, h) ∈ Map_set k v m → (u, h) = (k, v) ∨ (u, h) ∈ m.
Proof.
  induction m as [| [k' v'] m IH]; simpl.
  - intros ?%list_elem_of_singleton. by left.
  - case_bool_decide as Hk; rewrite !elem_of_cons.
    + intros [-> | Hin]; [by left | right; by right].
    + intros [-> | Hin]; [right; by left |].
      destruct (IH Hin) as [-> | Hm]; [by left | right; by right].
Qed.

Lemma Map_set_keys k v m :
  (Map_set k v m).*1 = if bool_decide (k ∈ m.*1) then m.*1 else m.*1 ++ [k].
Proof.
  induction m as [| [k' v'] m IH]; [done |].
  cbn [Map_set]. rewrite fmap_cons. cbn [fst].
  destruct (decide (k' = k)) as [-> | Hk].
  - rewrite !bool_decide_eq_true_2; [done | left | done].
  - rewrite bool_decide_eq_false_2 by done.
    rewrite fmap_cons. cbn [fst]. rewrite IH. case_bool_decide as Hin.
    + rewrite bool_decide_eq_true_2 by (by right). done.
    + rewrite bool_decide_eq_false_2; [done |].
      rewrite elem_of_cons. intros [? | ?]; [congruence | done].
Qed.

Lemma Map_wf_set k v m : Map_wf m → Map_wf (Map_set k v m).
Proof.
  unfold Map_wf. intros Hm. rewrite Map_set_keys.
  case_bool_decide as Hin; [done |].
  apply NoDup_app. split; [done |]. split; [| apply NoDup_singleton].
  intros x Hx ->%list_elem_of_singleton. done.
Qed.

Lemma Map_get_Some_elem_of k v m : Map_get k m = Some v → (k, v) ∈ m.
Proof.
  induction m as [| [k' v'] m IH]; simpl; [done |].
  case_bool_decide as Hk.
  - intros [= ->]. subst. left.
  - intros H. right. by apply IH.
Qed.

Lemma Map_get_elem_of k v m : Map_wf m → (k, v) ∈ m → Map_get k m = Some v.
Proof.
  unfold Map_wf. induction m as [| [k' v'] m IH]; simpl.
  - intros _ H. by apply elem_of_nil in H.
  - intros [Hnotin Hm]%NoDup_cons [Heq | Hin]%elem_of_cons.
    + injection Heq as -> ->. by rewrite bool_decide_eq_true_2.
    + rewrite bool_decide_eq_false_2; [by apply IH |].
      intros ->. apply Hnotin. apply list_elem_of_fmap. by exists (k, v).
Qed.

Lemma elem_of_Map_delete e k m : e ∈ Map_delete k m → e ∈ m.
Proof.
  induction m as [| [k' v'] m IH]; simpl; [done |].
  case_bool_decide as Hk; rewrite !elem_of_cons.
  - by right.
  - intros [-> | Hin]; [by left | right; by apply IH].
Qed.

Lemma Map_get_delete_ne k k' m :
  k ≠ k' → Map_get k' (Map_delete k m) = Map_get k' m.
Proof.
  intros Hne. induction m as [| [k0 v0] m IH]; simpl; [done |].
  case_bool_decide as Hk; simpl.
  - subst k0. by rewrite bool_decide_eq_false_2.
  - by rewrite IH.
Qed.

Lemma Map_get_None_notin k m : k ∉ m.*1 → Map_get k m = None.
Proof.
  induction m as [| [k' v'] m IH]; simpl; [done |].
  rewrite not_elem_of_cons. intros [Hne Hnotin].
  rewrite bool_decide_eq_false_2 by done. by apply IH.
Qed.

Lemma Map_get_delete_eq k m : Map_wf m → Map_get k (Map_delete k m) = None.
Proof.
  unfold Map_wf. induction m as [| [k' v'] m IH]; simpl; [done |].
  intros [Hnotin Hm]%NoDup_cons.
  case_bool_decide as Hk; simpl.
  - subst k'. by apply Map_get_None_notin.
  - rewrite bool_decide_eq_false_2 by done. by apply IH.
Qed.

Lemma Map_wf_delete k m : Map_wf m → Map_wf (Map_delete k m).
Proof.
  unfold Map_wf. induction m as [| [k' v'] m IH]; simpl; [done |].
  intros [Hnotin Hm]%NoDup_cons.
  case_bool_decide as Hk; simpl; [done |].
  apply NoDup_cons. split; [| by apply IH].
  intros ((k0 & v0) & Heq & Hin)%list_elem_of_fmap. simpl in Heq. subst k0.
  apply Hnotin. apply list_elem_of_fmap. exists (k', v0). split; [done |].
  by apply elem_of_Map_delete in Hin.
Qed.

(** The entry the disconnect loop stops at is held by the socket. *)
Lemma find_socket_Some h m u v :
  find (λ e : Z * string, bool_decide (e.2 = h)) m = Some (u, v) →
  (u, v) ∈ m ∧ v = h.
Proof.
  intros [Hin Hb]%find_some. apply list_elem_of_In in Hin.
  apply bool_decide_eq_true in Hb. done.
Qed.

Lemma find_socket_None h m u :
  find (λ e : Z * string, bool_decide (e.2 = h)) m = None → (u, h) ∉ m.
Proof.
  intros Hnone Hin. apply list_elem_of_In in Hin.
  pose proof (find_none _ _ Hnone _ Hin) as Hb. simpl in Hb.
  by apply bool_decide_eq_false in Hb.
Qed.

(** Both handlers keep the map well formed. *)
Lemma join_handler_wf h u s :
  Map_wf (onlineUsers s) → Map_wf (onlineUsers (join_handler h u s).1).
Proof. apply Map_wf_set. Qed.

Lemma disconnect_handler_wf h s :
  Map_wf (onlineUsers s) → Map_wf (onlineUsers (disconnect_handler h s).1).
Proof.
  intros Hwf. unfold disconnect_handler.
  destruct (find _ (onlineUsers s)) as [[u v] |]; [| done].
  by apply Map_wf_delete.
Qed.

(** A socket that holds no entry disconnects without a trace. *)
Lemma disconnect_handler_stale h s :
  (∀ u, (u, h) ∉ onlineUsers s) → disconnect_handler h s = (s, []).
Proof.
  intros Hfree. unfold disconnect_handler.
  destruct (find _ (onlineUsers s)) as [[u v] |] eqn:Hf; [| done].
  apply find_socket_Some in Hf as [Hin ->]. by apply Hfree in Hin.
Qed.

(** A socket that holds the entry of [A] and of nobody else removes it. *)
Lemma disconnect_handler_owner h A s :
  Map_wf (onlineUsers s) →
  (A, h) ∈ onlineUsers s →
  (∀ u, (u, h) ∈ onlineUsers s → u = A) →
  disconnect_handler h s
  = ({| database := database s; onlineUsers := Map_delete A (onlineUsers s) |},
     [(to_all, user_status A offline)])
  ∧ Map_get A (onlineUsers (disconnect_handler h s).1) = None.
Proof.
  intros Hwf Hin Honly.
  assert (H : disconnect_handler h s
              = ({| database := database s;
                    onlineUsers := Map_delete A (onlineUsers s) |},
                 [(to_all, user_status A offline)])).
  { unfold disconnect_handler.
    destruct (find _ (onlineUsers s)) as [[u v] |] eqn:Hf.
    - apply find_socket_Some in Hf as [Hu ->].
      by rewrite (Honly u Hu).
    - by apply (find_socket_None h _ A) in Hf. }
  split; [exact H |]. rewrite H. simpl. by apply Map_get_delete_eq.
Qed.

(** C3 (as stated, refuted): socket h2 also holds the entry of account 2,
    registered before account 1 joined on h1 and then on h2.  Lookup(1) is h2
    and the disconnect of h1 changes nothing, but the disconnect of h2 stops
    at account 2: it broadcasts offline for 2 and account 1 stays registered
    to h2. *)
Lemma disconnect_stops_at_first_entry :
  onlineUsers shared_socket = [(2, "h2"%string); (1, "h2"%string)]
  ∧ Map_get 1 (onlineUsers shared_socket) = Some "h2"%string
  ∧ disconnect_handler "h1" shared_socket = (shared_socket, [])
  ∧ disconnect_handler "h2" shared_socket
    = ({| database := two_users; onlineUsers := [(1, "h2"%string)] |},
       [(to_all, user_status 2 offline)])
  ∧ Map_get 1 (onlineUsers (disconnect_handler "h2" shared_socket).1)
    = Some "h2"%string
  ∧ (to_all, user_status 1 offline) ∉ (disconnect_handler "h2" shared_socket).2.
Proof.
  repeat (split; [reflexivity |]).
  intros Hin. apply list_elem_of_singleton in Hin. discriminate Hin.
Qed.

(** C3 (amended): after join of A on h1 and then on h2, Lookup(A) is h2; for
    h1 different from h2 the disconnect of h1 leaves A registered to h2 (and
    changes nothing at all when no other account is registered to h1); and
    when no other account is registered to h2, the following disconnect of h2
    removes the entry of A and broadcasts user_status offline for A. *)
Theorem presence_last_connect_wins s A h1 h2 :
  Map_wf (onlineUsers s) →
  let s2 := (join_handler h2 A (join_handler h1 A s).1).1 in
  let s3 := (disconnect_handler h1 s2).1 in
  Map_get A (onlineUsers s2) = Some h2
  ∧ (h1 ≠ h2 →
     Map_get A (onlineUsers s3) = Some h2
     ∧ ((∀ u, (u, h1) ∈ onlineUsers s → u = A) →
        disconnect_handler h1 s2 = (s2, []))
     ∧ ((∀ u, (u, h2) ∈ onlineUsers s → u = A) →
        disconnect_handler h2 s3
        = ({| database := database s3;
              onlineUsers := Map_delete A (onlineUsers s3) |},
           [(to_all, user_status A offline)])
        ∧ Map_get A (onlineUsers (disconnect_handler h2 s3).1) = None)).
Proof.
  intros Hwf s2 s3.
  assert (Hm2 : onlineUsers s2 = Map_set A h2 (onlineUsers s))
    by (simpl; apply Map_set_set).
  assert (Hwf2 : Map_wf (onlineUsers s2))
    by (rewrite Hm2; by apply Map_wf_set).
  assert (Hget2 : Map_get A (onlineUsers s2) = Some h2)
    by (rewrite Hm2; apply Map_get_set_eq).
  assert (Hin2 : ∀ u h, (u, h) ∈ onlineUsers s2 →
                        (u, h) = (A, h2) ∨ (u, h) ∈ onlineUsers s)
    by (intros u h; rewrite Hm2; apply elem_of_Map_set).
  split; [exact Hget2 |]. intros Hne.
  assert (Hget3 : Map_get A (onlineUsers s3) = Some h2).
  { subst s3. unfold disconnect_handler.
    destruct (find _ (onlineUsers s2)) as [[u v] |] eqn:Hf; [| exact Hget2].
    apply find_socket_Some in Hf as [Hu ->]. simpl.
    rewrite Map_get_delete_ne; [exact Hget2 |].
    intros ->. apply (Map_get_elem_of _ _ _ Hwf2) in Hu. congruence. }
  split; [exact Hget3 |]. split.
  - intros Honly. apply disconnect_handler_stale. intros u Hu.
    destruct (Hin2 u h1 Hu) as [[= _ Heq] | Hs]; [congruence |].
    pose proof (Honly u Hs) as ->.
    apply (Map_get_elem_of _ _ _ Hwf2) in Hu. congruence.
  - intros Honly. apply disconnect_handler_owner.
    + by apply disconnect_handler_wf.
    + by apply Map_get_Some_elem_of.
    + intros u Hu.
      assert (Hu2 : (u, h2) ∈ onlineUsers s2).
      { subst s3. unfold disconnect_handler in Hu.
        destruct (find _ (onlineUsers s2)) as [[u' v'] |]; [| exact Hu].
        by apply elem_of_Map_delete in Hu. }
      destruct (Hin2 u h2 Hu2) as [[= -> ] | Hs]; [done | by apply Honly].
Qed.

Lemma presence_last_connect_wins_witness :
  (Map_wf (onlineUsers bob_online)
   ∧ "h1"%string ≠ "h2"%string
   ∧ (∀ u, (u, "h1"%string) ∈ onlineUsers bob_online → u = 1)
   ∧ (∀ u, (u, "h2"%string) ∈ onlineUsers bob_online → u = 1))
  ∧ Map_get 1 (onlineUsers (join_handler "h2" 1 (join_handler "h1" 1 bob_online).1).1)
    = Some "h2"%string
  ∧ disconnect_handler "h1" (join_handler "h2" 1 (join_handler "h1" 1 bob_online).1).1
    = ((join_handler "h2" 1 (join_handler "h1" 1 bob_online).1).1, [])
  ∧ Map_get 1
      (onlineUsers
         (disconnect_handler "h2"
            (disconnect_handler "h1"
               (join_handler "h2" 1 (join_handler "h1" 1 bob_online).1).1).1).1)
    = None.
Proof.
  assert (Hwf : Map_wf (onlineUsers bob_online)).
  { unfold Map_wf. simpl. apply NoDup_singleton. }
  assert (Hne : "h1"%string ≠ "h2"%string) by discriminate.
  assert (Hh1 : ∀ u, (u, "h1"%string) ∈ onlineUsers bob_online → u = 1).
  { intros u Hu. simpl in Hu. apply list_elem_of_singleton in Hu. discriminate Hu. }
  assert (Hh2 : ∀ u, (u, "h2"%string) ∈ onlineUsers bob_online → u = 1).
  { intros u Hu. simpl in Hu. apply list_elem_of_singleton in Hu. discriminate Hu. }
  split; [done |].
  destruct (presence_last_connect_wins bob_online 1 "h1" "h2" Hwf) as [Hget Hrest].
  destruct (Hrest Hne) as (_ & Hstale & Hgone).
  split; [exact Hget |]. split; [exact (Hstale Hh1) |].
  exact (proj2 (Hgone Hh2)).
Defined.

(** ** The notification listing *)

#[local] Instance newer_first_trans : Transitive newer_first.
Proof. intros x y z. unfold newer_first. lia. Qed.

#[local] Instance newer_first_total : Total newer_first.
Proof. intros x y. unfold newer_first. lia. Qed.


Lemma notifications_of_spec d u n a :
  (n, a) ∈ notifications_of d u
  ↔ n ∈ notifications d ∧ n_user_id n = u ∧ get_user d (n_actor_id n) = Some a.
Proof.
  unfold notifications_of. rewrite list_elem_of_omap. split.
  - intros (n' & Hin & Hf). case_bool_decide as Hu; [| done].
    destruct (get_user d (n_actor_id n')) as [a' |] eqn:Ha; [| done].
    simpl in Hf. injection Hf as -> ->. done.
  - intros (Hin & Hu & Ha). exists n. split; [done |].
    rewrite bool_decide_eq_true_2 by done. by rewrite Ha.
Qed.



(** * Further properties *)

(** ** Inversion of the statements *)

Lemma insert_like_inv fk d p u d' :
  insert_like fk d p u = Some d' →
  ((p, u) ∉ likes d) ∧ d' = with_likes d ({[ (p, u) ]} ∪ likes d).
Proof.
  unfold insert_like. case_bool_decide; [done |].
  destruct (fk_post fk d p && fk_user fk d u); [| done].
  intros [= <-]. done.
Qed.

Lemma insert_comment_inv fk d p u c d' row :
  insert_comment fk d p u c = Some (d', row) →
  row = {| c_id := next_rowid (comments d); c_post_id := p;
           c_user_id := u; c_content := c |}
  ∧ d' = with_comments d (comments d ++ [row]).
Proof.
  unfold insert_comment.
  destruct (fk_post fk d p && fk_user fk d u); [| done].
  intros [= <- <-]. done.
Qed.

Lemma insert_user_inv d username email adm d' id :
  insert_user d username email adm = Some (d', id) →
  id = next_rowid (users d)
  ∧ d' = with_users d
           (users d ++ [ {| u_id := id; u_username := username; u_email := email;
                            u_is_private := 0; u_is_admin := adm |} ])
  ∧ (∀ u, u ∈ users d → u_username u ≠ username ∧ u_email u ≠ email).
Proof.
  unfold insert_user.
  destruct (existsb _ (users d)) eqn:Hex; [done |].
  intros [= <- <-]. split; [done |]. split; [done |].
  intros u Hu. apply list_elem_of_In in Hu.
  assert (Hu' : bool_decide (u_username u = username)
                || bool_decide (u_email u = email) = false).
  { apply not_true_is_false. intros Ht.
    assert (existsb (λ u, bool_decide (u_username u = username)
                          || bool_decide (u_email u = email)) (users d) = true)
      by (apply existsb_exists; eauto).
    congruence. }
  apply orb_false_iff in Hu' as [H1 H2].
  apply bool_decide_eq_false in H1, H2. done.
Qed.

(** Replaces each successful statement in the context by the state it
    produces. *)
Ltac invert_statements :=
  repeat match goal with
    | H : insert_follow _ _ _ _ _ = Some _ |- _ =>
        apply insert_follow_inv in H as [? ->]
    | H : insert_notification _ _ _ _ _ _ _ = Some _ |- _ =>
        apply insert_notification_inv in H as ->
    | H : insert_like _ _ _ _ = Some _ |- _ =>
        apply insert_like_inv in H as [? ->]
    | H : insert_comment _ _ _ _ _ = Some (_, _) |- _ =>
        apply insert_comment_inv in H as [-> ->]
    end.

(** Splits a handler into its control-flow paths. *)
Ltac handler_paths :=
  repeat (case_match; invert_statements; simplify_eq/=); try done.

(** ** Tables a handler leaves alone *)

Lemma follow_handler_frame fk now d a b :
  let d' := (follow_handler fk now d a b).1 in
  users d' = users d ∧ posts d' = posts d ∧ posts_seq d' = posts_seq d
  ∧ likes d' = likes d ∧ comments d' = comments d ∧ messages d' = messages d.
Proof. unfold follow_handler. handler_paths. Qed.

Lemma respond_handler_frame fk now d a b action :
  let d' := (respond_handler fk now d a b action).1 in
  users d' = users d ∧ posts d' = posts d ∧ posts_seq d' = posts_seq d
  ∧ likes d' = likes d ∧ comments d' = comments d ∧ messages d' = messages d.
Proof. unfold respond_handler. handler_paths. Qed.

Lemma like_handler_frame fk now d p u :
  let d' := (like_handler fk now d p u).1 in
  users d' = users d ∧ posts d' = posts d ∧ posts_seq d' = posts_seq d
  ∧ follows d' = follows d ∧ comments d' = comments d ∧ messages d' = messages d.
Proof. unfold like_handler. handler_paths. Qed.

Lemma comment_handler_frame fk now d p u c :
  let d' := (comment_handler fk now d p u c).1 in
  users d' = users d ∧ posts d' = posts d ∧ posts_seq d' = posts_seq d
  ∧ follows d' = follows d ∧ likes d' = likes d ∧ messages d' = messages d.
Proof. unfold comment_handler. handler_paths. Qed.

(** ** Accounts *)

Lemma get_user_id d id u : get_user d id = Some u → u_id u = id ∧ u ∈ users d.
Proof.
  unfold get_user. intros [Hin Hb]%find_some.
  apply bool_decide_eq_true in Hb. by apply list_elem_of_In in Hin.
Qed.

Lemma find_user_unique (l : list user_row) u :
  NoDup (u_id <$> l) → u ∈ l →
  find (λ v, bool_decide (u_id v = u_id u)) l = Some u.
Proof.
  induction l as [| v l IH]; [by intros _ ?%elem_of_nil |].
  rewrite fmap_cons. intros [Hnotin Hnd]%NoDup_cons [-> | Hin]%elem_of_cons; simpl.
  - by rewrite bool_decide_eq_true_2.
  - rewrite bool_decide_eq_false_2; [by apply IH |].
    intros Heq. apply Hnotin. rewrite Heq.
    apply list_elem_of_fmap. by exists u.
Qed.

Lemma users_ok_NoDup d : users_ok d → NoDup (u_id <$> users d).
Proof. intros [-> _]. apply NoDup_seqZ. Qed.

Lemma users_ok_get d u :
  users_ok d → u ∈ users d → get_user d (u_id u) = Some u.
Proof. intros Hok. apply find_user_unique. by apply users_ok_NoDup. Qed.

Lemma user_exists_elem d id : user_exists d id = true ↔ id ∈ u_id <$> users d.
Proof.
  unfold user_exists. split.
  - destruct (get_user d id) as [u |] eqn:Hg; [| done]. intros _.
    apply get_user_id in Hg as [<- Hin]. apply list_elem_of_fmap. by exists u.
  - intros (u & -> & Hin)%list_elem_of_fmap.
    destruct (get_user d (u_id u)) eqn:Hg; [done |].
    unfold get_user in Hg. apply list_elem_of_In in Hin.
    pose proof (find_none _ _ Hg u Hin) as Hb. simpl in Hb.
    by apply bool_decide_eq_false in Hb.
Qed.

(** In a well-formed table the accounts are exactly the ids 1..n. *)
Lemma users_ok_exists d id :
  users_ok d →
  user_exists d id = true ↔ 1 ≤ id ≤ Z.of_nat (length (users d)).
Proof.
  intros [Hids _]. rewrite user_exists_elem, Hids, elem_of_seqZ. lia.
Qed.

Lemma users_ok_register d username email adm :
  users_ok d →
  (∀ u, u ∈ users d → u_username u ≠ username ∧ u_email u ≠ email) →
  users_ok (with_users d
              (users d ++ [ {| u_id := next_rowid (users d); u_username := username;
                               u_email := email; u_is_private := 0;
                               u_is_admin := adm |} ])).
Proof.
  intros (Hids & Hnames & Hemails) Hfree. unfold users_ok. simpl.
  rewrite !fmap_app, length_app. simpl.
  split; [| split].
  - rewrite Nat.add_1_r, seqZ_S, Hids. unfold next_rowid. do 2 f_equal. lia.
  - apply NoDup_app. split; [done |]. split; [| apply NoDup_singleton].
    intros x (u & Hx & Hu)%list_elem_of_fmap Hx'%list_elem_of_singleton.
    destruct (Hfree u Hu). simpl in Hx'. congruence.
  - apply NoDup_app. split; [done |]. split; [| apply NoDup_singleton].
    intros x (u & Hx & Hu)%list_elem_of_fmap Hx'%list_elem_of_singleton.
    destruct (Hfree u Hu). simpl in Hx'. congruence.
Qed.

Lemma fmap_map_same {A B C} (f : B → C) (g : A → B) (h : A → C) (l : list A) :
  (∀ x, f (g x) = h x) → f <$> map g l = h <$> l.
Proof.
  intros Hfg. induction l as [| x l IH]; [done |].
  cbn [map]. rewrite !fmap_cons. by rewrite Hfg, IH.
Qed.

Lemma users_ok_update d id p : users_ok d → users_ok (update_user_handler d id p).1.
Proof.
  intros (Hids & Hnames & Hemails). unfold users_ok, update_user_handler. simpl.
  rewrite length_map.
  rewrite (fmap_map_same u_id _ u_id), (fmap_map_same u_username _ u_username),
    (fmap_map_same u_email _ u_email);
    [done | intros u; by case_bool_decide ..].
Qed.

(** X1: registration in a well-formed users table.  If some account already
    has the username or the email the answer is 400 and nothing changes;
    otherwise exactly one account is appended, with the next id, public, admin
    exactly when the table was empty; the answer is that account, it is the
    one found under its id, and the table stays well formed. *)
Theorem register_handler_outcome d username email :
  users_ok d →
  let new := {| u_id := Z.of_nat (length (users d)) + 1;
                u_username := username; u_email := email; u_is_private := 0;
                u_is_admin := if bool_decide (length (users d) = 0%nat)
                              then 1 else 0 |} in
  ((∃ u, u ∈ users d ∧ (u_username u = username ∨ u_email u = email)) →
   register_handler d username email = (d, http_400))
  ∧ ((∀ u, u ∈ users d → u_username u ≠ username ∧ u_email u ≠ email) →
     register_handler d username email
     = (with_users d (users d ++ [new]), json_user new)
     ∧ get_user (register_handler d username email).1 (u_id new) = Some new
     ∧ users_ok (register_handler d username email).1).
Proof.
  intros Hok new. split.
  - intros (u & Hu & Htaken). unfold register_handler, insert_user.
    assert (Hex : existsb (λ u, bool_decide (u_username u = username)
                                || bool_decide (u_email u = email)) (users d) = true).
    { apply existsb_exists. exists u. split; [by apply list_elem_of_In |].
      apply orb_true_iff. destruct Htaken; [left | right];
        by apply bool_decide_eq_true. }
    by rewrite Hex.
  - intros Hfree.
    pose proof (users_ok_register d username email (u_is_admin new) Hok Hfree) as Hok'.
    assert (Hget : get_user (with_users d (users d ++ [new])) (u_id new) = Some new).
    { apply (users_ok_get _ new Hok'). simpl. apply elem_of_app. right. left. }
    assert (Hreg : register_handler d username email
                   = (with_users d (users d ++ [new]), json_user new)).
    { unfold register_handler, insert_user.
      assert (Hex : existsb (λ u, bool_decide (u_username u = username)
                                  || bool_decide (u_email u = email)) (users d) = false).
      { apply not_true_is_false. intros (u & Hu & Hb)%existsb_exists.
        apply list_elem_of_In in Hu. destruct (Hfree u Hu) as [Hn He].
        apply orb_true_iff in Hb as [Hb | Hb]; by apply bool_decide_eq_true in Hb. }
      rewrite Hex. fold (u_is_admin new). unfold next_rowid.
      change (with_users d (users d ++ _)) with (with_users d (users d ++ [new])).
      change (Z.of_nat (length (users d)) + 1) with (u_id new).
      by rewrite Hget. }
    rewrite Hreg. done.
Qed.

Lemma register_handler_outcome_witness :
  (users_ok two_users
   ∧ (∃ u, u ∈ users two_users ∧ (u_username u = "bob"%string ∨ u_email u = "x"%string)))
  ∧ register_handler two_users "bob" "x" = (two_users, http_400).
Proof.
  assert (Hok : users_ok two_users).
  { unfold users_ok. simpl. split; [reflexivity |].
    split; apply NoDup_cons; (split; [| apply NoDup_singleton]);
      intros Hin; apply list_elem_of_singleton in Hin; discriminate Hin. }
  assert (Htaken : ∃ u, u ∈ users two_users
                        ∧ (u_username u = "bob"%string ∨ u_email u = "x"%string)).
  { exists bob. split; [right; left | by left]. }
  split; [done |].
  exact (proj1 (register_handler_outcome two_users "bob" "x" Hok) Htaken).
Defined.

(** ** Invariants of the reachable states *)

Lemma users_ok_same d d' : users d' = users d → users_ok d → users_ok d'.
Proof. unfold users_ok. by intros ->. Qed.

Lemma register_handler_users_ok d username email :
  users_ok d → users_ok (register_handler d username email).1.
Proof.
  intros Hok. unfold register_handler.
  destruct (insert_user d username email _) as [[d1 id] |] eqn:Hins; [| done].
  apply insert_user_inv in Hins as (-> & -> & Hfree).
  case_match; simpl; by apply users_ok_register.
Qed.

Lemma handle_users_ok fk now d r : users_ok d → users_ok (handle fk now d r).1.
Proof.
  intros Hok. destruct r; simpl.
  - by apply register_handler_users_ok.
  - by apply users_ok_update.
  - unfold create_post_handler. by case_match.
  - eapply users_ok_same; [apply follow_handler_frame | done].
  - eapply users_ok_same; [apply respond_handler_frame | done].
  - eapply users_ok_same; [apply like_handler_frame | done].
  - eapply users_ok_same; [apply comment_handler_frame | done].
  - done.
Qed.

Lemma posts_ok_same d d' :
  posts d' = posts d → posts_seq d' = posts_seq d → posts_ok d → posts_ok d'.
Proof. unfold posts_ok. by intros -> ->. Qed.

Lemma handle_posts_ok fk now d r : posts_ok d → posts_ok (handle fk now d r).1.
Proof.
  intros Hok. destruct r; simpl.
  - unfold register_handler.
    destruct (insert_user d username email _) as [[d1 id] |] eqn:Hins; [| done].
    apply insert_user_inv in Hins as (-> & -> & _). by case_match.
  - done.
  - unfold create_post_handler. case_match; [| done].
    destruct Hok as [Hseq Hids]. split; simpl; [lia |].
    intros id owner. rewrite lookup_insert. case_decide as Hid.
    + intros _. lia.
    + intros Hin. apply Hids in Hin. lia.
  - eapply posts_ok_same; [apply follow_handler_frame .. | done].
  - eapply posts_ok_same; [apply respond_handler_frame .. | done].
  - eapply posts_ok_same; [apply like_handler_frame .. | done].
  - eapply posts_ok_same; [apply comment_handler_frame .. | done].
  - done.
Qed.

(** X2: in every state the server reaches, the accounts carry the ids 1, 2,
    ... in registration order and no username or email occurs twice, and
    every post id lies between 1 and the number of posts created so far. *)
Theorem reachable_tables_ok fk d : reachable fk d → users_ok d ∧ posts_ok d.
Proof.
  induction 1 as [| d now r _ [IHu IHp]].
  - split; [| split; [done | intros id owner; simpl; by rewrite lookup_empty]].
    unfold users_ok. simpl. repeat split; constructor.
  - split; [by apply handle_users_ok | by apply handle_posts_ok].
Qed.

Lemma reachable_tables_ok_witness :
  reachable true (run true empty_db self_follow_trace)
  ∧ users_ok (run true empty_db self_follow_trace)
  ∧ posts_ok (run true empty_db self_follow_trace).
Proof.
  assert (Hr : reachable true (run true empty_db self_follow_trace))
    by (apply reachable_run, reachable_init).
  split; [exact Hr |].
  exact (reachable_tables_ok true _ Hr).
Defined.









Lemma references_ok_likes d ls : references_ok d → references_ok (with_likes d ls).
Proof. done. Qed.

Lemma references_ok_comments d cs : references_ok d → references_ok (with_comments d cs).
Proof. done. Qed.





Lemma update_user_handler_exists d id' p id :
  user_exists (update_user_handler d id' p).1 id = user_exists d id.
Proof.
  apply eq_true_iff_eq. rewrite !user_exists_elem. simpl.
  rewrite (fmap_map_same u_id _ u_id); [done |].
  intros u. by case_bool_decide.
Qed.


Lemma notifications_of_complete d u :
  (∀ n, n ∈ notifications d → user_exists d (n_actor_id n) = true) →
  (notifications_of d u).*1 = filter (λ n, n_user_id n = u) (notifications d).
Proof.
  unfold notifications_of. induction (notifications d) as [| n l IH]; [done |].
  intros Hall. rewrite filter_cons. cbn [omap list_omap].
  assert (Hn : user_exists d (n_actor_id n) = true) by (apply Hall; left).
  unfold user_exists in Hn.
  destruct (get_user d (n_actor_id n)) as [a |]; [| done].
  rewrite <- IH by (intros m Hm; apply Hall; by right).
  case_bool_decide; case_decide; done.
Qed.



(** ** More on the follow toggle *)

Lemma follow_handler_other_edges fk now d a b k :
  k ≠ (a, b) → follows (follow_handler fk now d a b).1 !! k = follows d !! k.
Proof.
  intros Hk. unfold follow_handler. handler_paths.
  all: rewrite ?lookup_delete_ne, ?lookup_insert_ne by done; done.
Qed.



(** X6: a follow-toggle on an existing edge deletes it whatever its status,
    so toggling again on a pending request withdraws the request: the answer
    is unfollowed, the edge is gone, no notification is written and the one
    sent with the request stays. *)
Theorem follow_handler_withdraws fk now d a b ub st :
  get_user d b = Some ub →
  follows d !! (a, b) = Some st →
  let d' := (follow_handler fk now d a b).1 in
  (follow_handler fk now d a b).2 = json_status reply_unfollowed
  ∧ follows d' = delete (a, b) (follows d)
  ∧ follows d' !! (a, b) = None
  ∧ is_following d' a b = false
  ∧ follow_requests d' b !! (a, b) = None
  ∧ notifications d' = notifications d.
Proof.
  intros Hb Hedge d'. subst d'.
  rewrite (follow_handler_remove fk now d a b ub st Hb Hedge). simpl.
  split; [done |]. split; [done |].
  assert (Hgone : delete (a, b) (follows d) !! (a, b) = None) by apply lookup_delete_eq.
  split; [exact Hgone |].
  split; [by apply is_following_absent |].
  split; [| done].
  unfold follow_requests. apply map_lookup_filter_None. by left.
Qed.

Lemma follow_handler_withdraws_witness :
  (get_user pending_request 2 = Some bob_private
   ∧ follows pending_request !! (1, 2) = Some pending)
  ∧ (follow_handler true 4 pending_request 1 2).2 = json_status reply_unfollowed
  ∧ follows (follow_handler true 4 pending_request 1 2).1 !! (1, 2) = None.
Proof.
  split; [split; reflexivity |].
  destruct (follow_handler_withdraws true 4 pending_request 1 2 bob_private pending
              eq_refl eq_refl) as (Hans & _ & Hgone & _).
  split; [exact Hans | exact Hgone].
Defined.

(** X7: whatever its outcome, a follow-toggle for the pair (a,b) leaves the
    edge of every other pair as it was, writes at most one notification (for
    b, from a) and never touches users, posts, likes, comments or messages. *)
Theorem follow_handler_footprint fk now d a b :
  let d' := (follow_handler fk now d a b).1 in
  (∀ k, k ≠ (a, b) → follows d' !! k = follows d !! k)
  ∧ (notifications d' = notifications d
     ∨ ∃ ty, notifications d'
             = notifications d ++ [new_notification now d b a ty None])
  ∧ users d' = users d ∧ posts d' = posts d ∧ likes d' = likes d
  ∧ comments d' = comments d ∧ messages d' = messages d.
Proof.
  intros d'. split; [intros k Hk; by apply follow_handler_other_edges |].
  split.
  - subst d'. unfold follow_handler. handler_paths; eauto.
  - destruct (follow_handler_frame fk now d a b) as (? & ? & ? & ? & ? & ?). done.
Qed.

(** ** Changing the privacy flag *)

Lemma find_map_same {A} (f : A → bool) (g : A → A) (l : list A) :
  (∀ x, f (g x) = f x) → find f (map g l) = g <$> find f l.
Proof.
  intros Hfg. induction l as [| x l IH]; [done |].
  simpl. rewrite Hfg. by destruct (f x).
Qed.

Lemma get_user_update d id p id' :
  get_user (update_user_handler d id p).1 id'
  = (λ u, if bool_decide (u_id u = id)
          then {| u_id := u_id u; u_username := u_username u; u_email := u_email u;
                  u_is_private := if p then 1 else 0; u_is_admin := u_is_admin u |}
          else u) <$> get_user d id'.
Proof.
  unfold get_user, update_user_handler. simpl.
  apply find_map_same. intros u. by destruct (bool_decide (u_id u = id)).
Qed.

(** X8: PUT /api/users/:id sets the privacy flag of that account to 1 or 0
    and of no other account, and changes no follow edge: pending requests are
    not accepted when the account goes public and accepted followers stay
    when it goes private.  From then on a follow-toggle on a missing edge
    answers pending exactly when the flag was set. *)
Theorem update_user_handler_privacy fk now d B uB p :
  get_user d B = Some uB →
  let d' := (update_user_handler d B p).1 in
  get_user d' B
  = Some {| u_id := u_id uB; u_username := u_username uB; u_email := u_email uB;
            u_is_private := if p then 1 else 0; u_is_admin := u_is_admin uB |}
  ∧ (∀ id, id ≠ B → get_user d' id = get_user d id)
  ∧ follows d' = follows d
  ∧ notifications d' = notifications d
  ∧ (∀ A, user_exists d A = true → follows d !! (A, B) = None →
       (follow_handler fk now d' A B).2
       = json_status (if p then reply_pending else reply_accepted)
       ∧ follows (follow_handler fk now d' A B).1 !! (A, B)
         = Some (if p then pending else accepted)).
Proof.
  intros HB d'.
  assert (Hget : get_user d' B
                 = Some {| u_id := u_id uB; u_username := u_username uB;
                           u_email := u_email uB;
                           u_is_private := if p then 1 else 0;
                           u_is_admin := u_is_admin uB |}).
  { subst d'. rewrite get_user_update, HB. simpl.
    destruct (get_user_id _ _ _ HB) as [Hid _].
    by rewrite bool_decide_eq_true_2. }
  split; [exact Hget |]. split.
  { intros id Hne. subst d'. rewrite get_user_update.
    destruct (get_user d id) as [u |] eqn:Hu; [| done]. simpl.
    destruct (get_user_id _ _ _ Hu) as [Hid _].
    rewrite bool_decide_eq_false_2 by congruence. done. }
  split; [done |]. split; [done |].
  intros A HA Hnone.
  assert (HA' : user_exists d' A = true).
  { subst d'. by rewrite update_user_handler_exists. }
  pose proof (follow_handler_create fk now d' A B _ HA' Hget Hnone) as Hrun.
  simpl in Hrun. rewrite Hrun. simpl.
  rewrite lookup_insert_eq. by destruct p.
Qed.

Lemma update_user_handler_privacy_witness :
  get_user two_users 2 = Some bob
  ∧ get_user (update_user_handler two_users 2 true).1 2 = Some bob_private
  ∧ follows (update_user_handler two_users 2 true).1 = follows two_users.
Proof.
  split; [reflexivity |].
  destruct (update_user_handler_privacy true 0 two_users 2 bob true eq_refl)
    as (Hget & _ & Hf & _).
  split; [exact Hget | exact Hf].
Defined.

(** ** Pending requests and the profile counters *)

Lemma follow_requests_lookup d B a b st :
  follow_requests d B !! (a, b) = Some st
  ↔ follows d !! (a, b) = Some st ∧ b = B ∧ st = pending
    ∧ is_Some (get_user d a).
Proof.
  unfold follow_requests. rewrite map_lookup_filter_Some. simpl. tauto.
Qed.

Lemma respond_handler_follows fk now d a b action :
  follows (respond_handler fk now d a b action).1
  = if bool_decide (action = "accept"%string)
    then alter (λ _, accepted) (a, b) (follows d)
    else delete (a, b) (follows d).
Proof. unfold respond_handler. handler_paths. Qed.

(** X9: the list of incoming follow requests of an account.  A follow-toggle
    on a private account B puts the request of A on B's list; the accept
    decision and every other decision take it off; an edge created towards a
    public account never appears on it. *)
Theorem follow_requests_lifecycle fk now d A B uB :
  user_exists d A = true →
  get_user d B = Some uB →
  follows d !! (A, B) = None →
  let d1 := (follow_handler fk now d A B).1 in
  follow_requests d B !! (A, B) = None
  ∧ follow_requests d1 B !! (A, B)
    = (if truthy (u_is_private uB) then Some pending else None)
  ∧ ∀ now' action,
      follow_requests (respond_handler fk now' d1 A B action).1 B !! (A, B) = None.
Proof.
  intros HA HB Hnone d1.
  assert (Hbefore : follow_requests d B !! (A, B) = None).
  { unfold follow_requests. apply map_lookup_filter_None. by left. }
  split; [exact Hbefore |].
  pose proof (follow_handler_create fk now d A B uB HA HB Hnone) as Hrun.
  simpl in Hrun.
  assert (Hedge : follows d1 !! (A, B)
                  = Some (if truthy (u_is_private uB) then pending else accepted)).
  { subst d1. rewrite Hrun. simpl. apply lookup_insert_eq. }
  assert (Husers : ∀ id, get_user d1 id = get_user d id).
  { intros id. subst d1. by rewrite Hrun. }
  split.
  - revert Hedge. destruct (truthy (u_is_private uB)); intros Hedge.
    + apply follow_requests_lookup. rewrite Husers.
      split; [exact Hedge |]. split; [done |]. split; [done |].
      unfold user_exists in HA. destruct (get_user d A); [eauto | done].
    + destruct (follow_requests d1 B !! (A, B)) as [st |] eqn:Hreq; [| done].
      apply follow_requests_lookup in Hreq as (He & _ & -> & _). congruence.
  - intros now' action. apply eq_None_not_Some. intros [st Hreq].
    apply follow_requests_lookup in Hreq as (He & _ & -> & _).
    rewrite respond_handler_follows in He. case_bool_decide.
    + rewrite lookup_alter_eq in He. by destruct (follows d1 !! (A, B)).
    + by rewrite lookup_delete_eq in He.
Qed.

Lemma follow_requests_lifecycle_witness :
  (user_exists private_target 1 = true
   ∧ get_user private_target 2 = Some bob_private
   ∧ follows private_target !! (1, 2) = None)
  ∧ follow_requests (follow_handler true 3 private_target 1 2).1 2 !! (1, 2)
    = Some pending
  ∧ follow_requests
      (respond_handler true 4 (follow_handler true 3 private_target 1 2).1 1 2 "reject").1
      2 !! (1, 2) = None.
Proof.
  split; [repeat split; reflexivity |].
  destruct (follow_requests_lifecycle true 3 private_target 1 2 bob_private
              eq_refl eq_refl eq_refl) as (_ & Hlisted & Hgone).
  split; [exact Hlisted | exact (Hgone 4 "reject"%string)].
Defined.

Lemma followingCount_insert_accepted d a b :
  follows d !! (a, b) = None →
  followingCount (with_follows d (<[(a, b) := accepted]> (follows d))) a
  = S (followingCount d a).
Proof.
  intros Hnone. unfold followingCount. simpl.
  rewrite map_filter_insert_True by done.
  apply map_size_insert_None, map_lookup_filter_None. by left.
Qed.

Lemma counts_insert_pending d a b x :
  follows d !! (a, b) = None →
  followersCount (with_follows d (<[(a, b) := pending]> (follows d))) x
  = followersCount d x
  ∧ followingCount (with_follows d (<[(a, b) := pending]> (follows d))) x
    = followingCount d x.
Proof.
  intros Hnone. unfold followersCount, followingCount. simpl.
  rewrite !map_filter_insert_False by (simpl; intros [_ ?]; done).
  by rewrite delete_id.
Qed.

(** X10: the counters of GET /api/users/:id.  An unknown id gives 404.  A
    pending request counts neither as a follower of the target nor as a
    following of the requester; once it is accepted the target's
    followersCount and the requester's followingCount are each one higher
    than before the request. *)
Theorem profile_handler_counts fk now now' d A B uA uB :
  get_user d A = Some uA →
  get_user d B = Some uB →
  u_is_private uB ≠ 0 →
  follows d !! (A, B) = None →
  let d1 := (follow_handler fk now d A B).1 in
  let d2 := (respond_handler fk now' d1 A B "accept").1 in
  (∀ d' id, get_user d' id = None → profile_handler d' id = None)
  ∧ profile_handler d1 B
    = Some {| p_user := uB; p_postsCount := postsCount d B;
              p_followersCount := followersCount d B;
              p_followingCount := followingCount d B |}
  ∧ p_followingCount <$> profile_handler d1 A = Some (followingCount d A)
  ∧ profile_handler d2 B
    = Some {| p_user := uB; p_postsCount := postsCount d B;
              p_followersCount := S (followersCount d B);
              p_followingCount := followingCount d2 B |}
  ∧ p_followingCount <$> profile_handler d2 A = Some (S (followingCount d A)).
Proof.
  intros HA HB Hpriv Hnone d1 d2.
  assert (Ht : truthy (u_is_private uB) = true).
  { unfold truthy. apply negb_true_iff. by apply Z.eqb_neq. }
  pose proof (follow_handler_create fk now d A B uB
                (user_exists_of_get _ _ _ HA) HB Hnone) as Hrun.
  simpl in Hrun. rewrite Ht in Hrun.
  assert (Hf1 : follows d1 = <[(A, B) := pending]> (follows d))
    by (subst d1; by rewrite Hrun).
  assert (Hu1 : ∀ id, get_user d1 id = get_user d id)
    by (intros id; subst d1; by rewrite Hrun).
  assert (Hp1 : posts d1 = posts d) by (subst d1; by rewrite Hrun).
  assert (Hf2 : follows d2 = <[(A, B) := accepted]> (follows d)).
  { subst d2. rewrite respond_handler_follows. simpl.
    by rewrite Hf1, alter_insert_eq. }
  assert (Hu2 : ∀ id, get_user d2 id = get_user d id).
  { intros id. subst d2. unfold get_user.
    destruct (respond_handler_frame fk now' d1 A B "accept") as (-> & _).
    apply Hu1. }
  assert (Hp2 : posts d2 = posts d).
  { subst d2. destruct (respond_handler_frame fk now' d1 A B "accept") as (_ & -> & _).
    exact Hp1. }
  assert (Hpend : ∀ x, followersCount d1 x = followersCount d x
                       ∧ followingCount d1 x = followingCount d x).
  { intros x. unfold followersCount, followingCount. rewrite Hf1.
    exact (counts_insert_pending d A B x Hnone). }
  assert (HaccB : followersCount d2 B = S (followersCount d B)).
  { unfold followersCount. rewrite Hf2.
    exact (followersCount_insert_accepted d A B Hnone). }
  assert (HaccA : followingCount d2 A = S (followingCount d A)).
  { unfold followingCount. rewrite Hf2.
    exact (followingCount_insert_accepted d A B Hnone). }
  assert (Hpc1 : postsCount d1 B = postsCount d B)
    by (unfold postsCount; by rewrite Hp1).
  assert (Hpc2 : postsCount d2 B = postsCount d B)
    by (unfold postsCount; by rewrite Hp2).
  split; [intros d' id Hmiss; unfold profile_handler; by rewrite Hmiss |].
  unfold profile_handler. rewrite !Hu1, !Hu2, HA, HB. simpl.
  rewrite Hpc1, Hpc2, HaccB, HaccA.
  rewrite (proj1 (Hpend B)), (proj2 (Hpend B)), (proj2 (Hpend A)). done.
Qed.

Lemma profile_handler_counts_witness :
  (get_user private_target 1 = Some ann
   ∧ get_user private_target 2 = Some bob_private
   ∧ u_is_private bob_private ≠ 0
   ∧ follows private_target !! (1, 2) = None)
  ∧ p_followersCount <$> profile_handler (follow_handler true 3 private_target 1 2).1 2
    = Some (followersCount private_target 2)
  ∧ p_followingCount <$>
      profile_handler
        (respond_handler true 4 (follow_handler true 3 private_target 1 2).1 1 2 "accept").1 1
    = Some (S (followingCount private_target 1)).
Proof.
  assert (Hpriv : u_is_private bob_private ≠ 0) by (simpl; lia).
  split; [repeat split; try reflexivity; exact Hpriv |].
  destruct (profile_handler_counts true 3 4 private_target 1 2 ann bob_private
              eq_refl eq_refl Hpriv eq_refl) as (_ & H1 & _ & _ & H2).
  split; [by rewrite H1 | exact H2].
Defined.

(** ** The feed *)

Lemma feed_posts_visible d A p B :
  posts d !! p = Some B → is_Some (get_user d B) →
  B = A ∨ follows d !! (A, B) = Some accepted →
  feed_posts d A !! p = Some B.
Proof.
  intros Hp Hu Hvis. unfold feed_posts. apply map_lookup_filter_Some. done.
Qed.

Lemma feed_posts_hidden d A p B :
  posts d !! p = Some B → B ≠ A → follows d !! (A, B) ≠ Some accepted →
  feed_posts d A !! p = None.
Proof.
  intros Hp Hne Hnot. unfold feed_posts. apply map_lookup_filter_None. right.
  intros x Hx [_ [Heq | Hacc]]; simpl in *; congruence.
Qed.

(** X11: whose posts the feed shows.  A post of an account B is always in
    B's own feed.  It is not in the feed of another account A that has no edge
    to B; after A's follow-toggle it is there exactly when B is public (a
    pending request shows nothing); it is there once the request is accepted,
    and it is gone again after a second toggle. *)
Theorem feed_posts_follow fk now now' d A B uB p :
  A ≠ B →
  user_exists d A = true →
  get_user d B = Some uB →
  follows d !! (A, B) = None →
  posts d !! p = Some B →
  let d1 := (follow_handler fk now d A B).1 in
  let d2 := (respond_handler fk now' d1 A B "accept").1 in
  let d3 := (follow_handler fk now' d1 A B).1 in
  feed_posts d B !! p = Some B
  ∧ feed_posts d A !! p = None
  ∧ feed_posts d1 A !! p = (if truthy (u_is_private uB) then None else Some B)
  ∧ feed_posts d2 A !! p = Some B
  ∧ feed_posts d3 A !! p = None.
Proof.
  intros Hne HA HB Hnone Hp d1 d2 d3.
  pose proof (follow_handler_create fk now d A B uB HA HB Hnone) as Hrun.
  simpl in Hrun.
  assert (Hf1 : follows d1 !! (A, B)
                = Some (if truthy (u_is_private uB) then pending else accepted))
    by (subst d1; rewrite Hrun; simpl; apply lookup_insert_eq).
  assert (Hu1 : get_user d1 B = Some uB) by (subst d1; by rewrite Hrun).
  assert (Hp1 : posts d1 !! p = Some B) by (subst d1; by rewrite Hrun).
  split; [apply feed_posts_visible; eauto |].
  split; [apply (feed_posts_hidden d A p B); [done | done | by rewrite Hnone] |].
  split.
  { destruct (truthy (u_is_private uB)).
    - apply (feed_posts_hidden d1 A p B); [done | done | by rewrite Hf1].
    - apply feed_posts_visible; eauto. }
  split.
  - apply feed_posts_visible.
    + subst d2. by destruct (respond_handler_frame fk now' d1 A B "accept")
        as (_ & -> & _).
    + subst d2. unfold get_user.
      destruct (respond_handler_frame fk now' d1 A B "accept") as (-> & _).
      fold (get_user d1 B). rewrite Hu1. eauto.
    + right. subst d2. rewrite respond_handler_follows. simpl.
      rewrite lookup_alter_eq, Hf1. done.
  - apply (feed_posts_hidden d3 A p B); [| done |].
    + subst d3. by destruct (follow_handler_frame fk now' d1 A B) as (_ & -> & _).
    + subst d3. rewrite (follow_handler_remove fk now' d1 A B uB _ Hu1 Hf1).
      simpl. by rewrite lookup_delete_eq.
Qed.

Lemma feed_posts_follow_witness :
  let d := (create_post_handler true private_target 2).1 in
  ((1 : Z) ≠ 2
   ∧ user_exists d 1 = true
   ∧ get_user d 2 = Some bob_private
   ∧ follows d !! (1, 2) = None
   ∧ posts d !! 1 = Some 2)
  ∧ feed_posts d 2 !! 1 = Some 2
  ∧ feed_posts (follow_handler true 3 d 1 2).1 1 !! 1 = None
  ∧ feed_posts
      (respond_handler true 4 (follow_handler true 3 d 1 2).1 1 2 "accept").1 1 !! 1
    = Some 2.
Proof.
  intros d.
  assert (Hne : (1 : Z) ≠ 2) by lia.
  split; [repeat split; try reflexivity; exact Hne |].
  destruct (feed_posts_follow true 3 4 d 1 2 bob_private 1
              Hne eq_refl eq_refl eq_refl eq_refl) as (H1 & _ & H2 & H3 & _).
  split; [exact H1 |]. split; [exact H2 | exact H3].
Defined.

(** ** Likes *)

Lemma size_filter_add (P : Z * Z → Prop) `{∀ x, Decision (P x)}
    (x : Z * Z) (X : gset (Z * Z)) :
  x ∉ X →
  size (filter P ({[ x ]} ∪ X))
  = if decide (P x) then S (size (filter P X)) else size (filter P X).
Proof.
  intros Hx.
  assert (Hu : filter P ({[ x ]} ∪ X) = filter P {[ x ]} ∪ filter P X)
    by (apply filter_union_L; apply _).
  rewrite Hu. clear Hu. destruct (decide (P x)) as [HP | HP].
  - assert (Hs : filter P ({[ x ]} : gset (Z * Z)) = {[ x ]})
      by (apply filter_singleton_True_L; [apply _ | exact HP]).
    rewrite Hs, size_union.
    + by rewrite size_singleton.
    + intros y Hy1 Hy2. apply elem_of_singleton in Hy1 as ->.
      apply elem_of_filter in Hy2 as [_ Hy2]. done.
  - assert (Hs : filter P ({[ x ]} : gset (Z * Z)) = ∅)
      by (apply filter_singleton_False_L; [apply _ | exact HP]).
    rewrite Hs. by rewrite (left_id_L ∅ (∪)).
Qed.

Lemma gset_add_remove (x : Z * Z) (X : gset (Z * Z)) :
  x ∉ X → ({[ x ]} ∪ X) ∖ {[ x ]} = X.
Proof.
  intros Hx. apply set_eq. intros y.
  rewrite elem_of_difference, elem_of_union, !elem_of_singleton. split.
  - intros [[-> | Hy] Hne]; done.
  - intros Hy. split; [by right | by intros ->].
Qed.

Lemma gset_add_elem (x : Z * Z) (X : gset (Z * Z)) : x ∈ {[ x ]} ∪ X.
Proof. apply elem_of_union. left. by apply elem_of_singleton. Qed.

Lemma gset_remove_notin (x : Z * Z) (X : gset (Z * Z)) : x ∉ X ∖ {[ x ]}.
Proof. rewrite elem_of_difference, elem_of_singleton. by intros [_ Hne]. Qed.

Lemma has_liked_spec d p u :
  has_liked d p u = if bool_decide ((p, u) ∈ likes d) then 1%nat else 0%nat.
Proof.
  unfold has_liked. case_bool_decide as Hin.
  - assert (filter (λ k : Z * Z, k.1 = p ∧ k.2 = u) (likes d) = {[ (p, u) ]}) as ->.
    { apply set_eq. intros [p' u']. rewrite elem_of_filter, elem_of_singleton.
      simpl. split; [intros [[-> ->] _]; done | intros [= -> ->]; done]. }
    apply size_singleton.
  - assert (filter (λ k : Z * Z, k.1 = p ∧ k.2 = u) (likes d) = ∅) as ->.
    { apply set_eq. intros [p' u']. rewrite elem_of_filter. simpl.
      split; [intros [[-> ->] ?]; done | intros ?%not_elem_of_empty; done]. }
    apply size_empty.
Qed.

Lemma like_handler_fresh fk now d p u owner :
  posts d !! p = Some owner →
  user_exists d u = true → user_exists d owner = true →
  (p, u) ∉ likes d →
  like_handler fk now d p u
  = (with_notifications (with_likes d ({[ (p, u) ]} ∪ likes d))
       (if bool_decide (owner ≠ u)
        then notifications d ++ [new_notification now d owner u like (Some p)]
        else notifications d),
     json_liked true).
Proof.
  intros Hp Hu Ho Hnew. unfold like_handler.
  rewrite (insert_like_fresh fk d p u owner) by done. simpl. rewrite Hp.
  case_bool_decide; [| done].
  by rewrite (insert_notification_ok fk now (with_likes d _) owner u like (Some p) Ho Hu).
Qed.

Lemma like_handler_taken fk now d p u :
  (p, u) ∈ likes d →
  like_handler fk now d p u = (delete_like d p u, json_liked false).
Proof.
  intros Hin. unfold like_handler, insert_like.
  by rewrite bool_decide_eq_true_2.
Qed.

(** X12: the like toggle on an existing post by an existing account.  The
    first call stores the like and answers liked: true: likes_count of the
    post grows by one and has_liked becomes 1.  The second call removes it and
    answers liked: false: the likes are what they were, and the notification
    written by the first call is neither withdrawn nor repeated. *)
Theorem like_handler_toggle fk now now' d p u owner :
  posts d !! p = Some owner →
  user_exists d u = true → user_exists d owner = true →
  (p, u) ∉ likes d →
  let d1 := (like_handler fk now d p u).1 in
  let d2 := (like_handler fk now' d1 p u).1 in
  (like_handler fk now d p u).2 = json_liked true
  ∧ likes_count d1 p = S (likes_count d p)
  ∧ has_liked d p u = 0%nat ∧ has_liked d1 p u = 1%nat
  ∧ (like_handler fk now' d1 p u).2 = json_liked false
  ∧ likes d2 = likes d
  ∧ likes_count d2 p = likes_count d p
  ∧ has_liked d2 p u = 0%nat
  ∧ notifications d2 = notifications d1.
Proof.
  intros Hp Hu Ho Hnew d1 d2.
  pose proof (like_handler_fresh fk now d p u owner Hp Hu Ho Hnew) as H1.
  assert (Hl1 : likes d1 = {[ (p, u) ]} ∪ likes d) by (subst d1; by rewrite H1).
  assert (Hin1 : (p, u) ∈ likes d1) by (rewrite Hl1; apply gset_add_elem).
  pose proof (like_handler_taken fk now' d1 p u Hin1) as H2.
  assert (Hl2 : likes d2 = likes d).
  { subst d2. rewrite H2. simpl. rewrite Hl1. by apply gset_add_remove. }
  split; [by rewrite H1 |].
  split.
  { unfold likes_count. rewrite Hl1, size_filter_add by done.
    by rewrite decide_True. }
  split; [rewrite has_liked_spec; by rewrite bool_decide_eq_false_2 |].
  split; [rewrite has_liked_spec; by rewrite bool_decide_eq_true_2 |].
  split; [by rewrite H2 |].
  split; [exact Hl2 |].
  split; [unfold likes_count; by rewrite Hl2 |].
  split; [rewrite has_liked_spec, Hl2; by rewrite bool_decide_eq_false_2 |].
  subst d2. by rewrite H2.
Qed.

Lemma like_handler_toggle_witness :
  let d := (create_post_handler true two_users 2).1 in
  (posts d !! 1 = Some 2 ∧ user_exists d 1 = true ∧ user_exists d 2 = true
   ∧ (1, 1) ∉ likes d)
  ∧ (like_handler true 5 d 1 1).2 = json_liked true
  ∧ likes_count (like_handler true 5 d 1 1).1 1 = S (likes_count d 1)
  ∧ (like_handler true 6 (like_handler true 5 d 1 1).1 1 1).2 = json_liked false
  ∧ likes (like_handler true 6 (like_handler true 5 d 1 1).1 1 1).1 = likes d.
Proof.
  intros d.
  assert (Hnew : (1, 1) ∉ likes d) by (simpl; apply not_elem_of_empty).
  split; [repeat split; try reflexivity; exact Hnew |].
  destruct (like_handler_toggle true 5 6 d 1 1 2 eq_refl eq_refl eq_refl Hnew)
    as (H1 & H2 & _ & _ & H3 & H4 & _).
  repeat split; assumption.
Defined.

(** X13: liking again after an unlike notifies again.  For a post of another
    account, like, unlike, like leaves two like notifications for the owner
    (one per like, none for the unlike), both unread. *)
Theorem like_handler_renotifies fk t1 t2 t3 d p u owner :
  posts d !! p = Some owner →
  user_exists d u = true → user_exists d owner = true →
  (p, u) ∉ likes d →
  owner ≠ u →
  let d1 := (like_handler fk t1 d p u).1 in
  let d2 := (like_handler fk t2 d1 p u).1 in
  let d3 := (like_handler fk t3 d2 p u).1 in
  ∃ n1 n3,
    notifications d3 = notifications d ++ [n1; n3]
    ∧ n_user_id n1 = owner ∧ n_actor_id n1 = u ∧ n_type n1 = like
    ∧ n_user_id n3 = owner ∧ n_actor_id n3 = u ∧ n_type n3 = like
    ∧ n_is_read n1 = 0 ∧ n_is_read n3 = 0
    ∧ n_id n3 = n_id n1 + 1
    ∧ notification_count d3 owner = S (S (notification_count d owner)).
Proof.
  intros Hp Hu Ho Hnew Hne d1 d2 d3.
  pose proof (like_handler_fresh fk t1 d p u owner Hp Hu Ho Hnew) as H1.
  rewrite bool_decide_eq_true_2 in H1 by done.
  assert (Hin1 : (p, u) ∈ likes d1)
    by (subst d1; rewrite H1; simpl; apply gset_add_elem).
  pose proof (like_handler_taken fk t2 d1 p u Hin1) as H2.
  assert (Hd2 : d2 = delete_like d1 p u) by (subst d2; by rewrite H2).
  assert (Hnew2 : (p, u) ∉ likes d2)
    by (rewrite Hd2; simpl; apply gset_remove_notin).
  assert (Hp2 : posts d2 !! p = Some owner)
    by (rewrite Hd2; subst d1; by rewrite H1).
  assert (Hu2 : ∀ id, user_exists d2 id = user_exists d id)
    by (intros id; rewrite Hd2; subst d1; by rewrite H1).
  pose proof (like_handler_fresh fk t3 d2 p u owner Hp2) as H3.
  rewrite !Hu2 in H3. specialize (H3 Hu Ho Hnew2).
  rewrite bool_decide_eq_true_2 in H3 by done.
  assert (Hn2 : notifications d2
                = notifications d ++ [new_notification t1 d owner u like (Some p)])
    by (rewrite Hd2; subst d1; by rewrite H1).
  assert (Hn3 : notifications d3
                = notifications d ++ [new_notification t1 d owner u like (Some p);
                                      new_notification t3 d2 owner u like (Some p)]).
  { subst d3. rewrite H3. simpl. rewrite Hn2, <- app_assoc. done. }
  eexists _, _. split; [exact Hn3 |].
  repeat (split; [reflexivity |]).
  split.
  { simpl. unfold next_rowid. rewrite Hn2, length_app. simpl. lia. }
  unfold notification_count. rewrite Hn3, filter_app, length_app.
  rewrite !filter_cons, filter_nil. simpl. rewrite !decide_True by done.
  simpl. lia.
Qed.

Lemma like_handler_renotifies_witness :
  let d := (create_post_handler true two_users 2).1 in
  (posts d !! 1 = Some 2 ∧ user_exists d 1 = true ∧ user_exists d 2 = true
   ∧ ((1, 1) ∉ likes d) ∧ (2 : Z) ≠ 1)
  ∧ notification_count
      (like_handler true 7 (like_handler true 6 (like_handler true 5 d 1 1).1 1 1).1 1 1).1 2
    = S (S (notification_count d 2)).
Proof.
  intros d.
  assert (Hnew : (1, 1) ∉ likes d) by (simpl; apply not_elem_of_empty).
  assert (Hne : (2 : Z) ≠ 1) by lia.
  split; [repeat split; try reflexivity; assumption |].
  destruct (like_handler_renotifies true 5 6 7 d 1 1 2 eq_refl eq_refl eq_refl Hnew Hne)
    as (n1 & n3 & H). apply H.
Defined.

Lemma gset_remove_absent (x : Z * Z) (X : gset (Z * Z)) : x ∉ X → X ∖ {[ x ]} = X.
Proof.
  intros Hx. apply set_eq. intros y.
  rewrite elem_of_difference, elem_of_singleton. split.
  - by intros [Hy _].
  - intros Hy. split; [done | by intros ->].
Qed.

(** X14: a like for a post that does not exist.  With foreign keys enforced
    the INSERT throws and the catch answers liked: false with nothing stored;
    without enforcement the like is stored and answered liked: true, and no
    notification is written because there is no owner to notify. *)
Theorem like_handler_missing_post now d p u :
  posts d !! p = None →
  (p, u) ∉ likes d →
  ((like_handler true now d p u).2 = json_liked false
   ∧ likes (like_handler true now d p u).1 = likes d
   ∧ notifications (like_handler true now d p u).1 = notifications d)
  ∧ ((like_handler false now d p u).2 = json_liked true
     ∧ likes (like_handler false now d p u).1 = {[ (p, u) ]} ∪ likes d
     ∧ notifications (like_handler false now d p u).1 = notifications d).
Proof.
  intros Hp Hnew. split.
  - unfold like_handler, insert_like, fk_post.
    rewrite bool_decide_eq_false_2 by done. rewrite Hp. simpl.
    split; [done |]. split; [by apply gset_remove_absent | done].
  - unfold like_handler, insert_like, fk_post, fk_user.
    rewrite bool_decide_eq_false_2 by done. simpl. by rewrite Hp.
Qed.

Lemma like_handler_missing_post_witness :
  (posts two_users !! 9 = None ∧ (9, 1) ∉ likes two_users)
  ∧ (like_handler true 5 two_users 9 1).2 = json_liked false
  ∧ (like_handler false 5 two_users 9 1).2 = json_liked true.
Proof.
  assert (Hnew : (9, 1) ∉ likes two_users) by (simpl; apply not_elem_of_empty).
  split; [split; [reflexivity | exact Hnew] |].
  destruct (like_handler_missing_post 5 two_users 9 1 eq_refl Hnew)
    as [(H1 & _) (H2 & _)].
  split; [exact H1 | exact H2].
Defined.

(** ** Comments *)



(** ** Marking notifications as read *)

Lemma mark_read_elem d u n :
  n ∈ notifications (mark_read_handler d u).1 →
  ∃ m, m ∈ notifications d
       ∧ n = if bool_decide (n_user_id m = u)
             then {| n_id := n_id m; n_user_id := n_user_id m;
                     n_actor_id := n_actor_id m; n_type := n_type m;
                     n_post_id := n_post_id m; n_is_read := 1;
                     n_created_at := n_created_at m |}
             else m.
Proof.
  simpl. intros (m & <- & Hm)%list_elem_of_In%in_map_iff.
  exists m. split; [by apply list_elem_of_In | done].
Qed.

Lemma mark_read_filter d u r :
  r ≠ u →
  filter (λ n, n_user_id n = r) (notifications (mark_read_handler d u).1)
  = filter (λ n, n_user_id n = r) (notifications d).
Proof.
  intros Hne. simpl. induction (notifications d) as [| n l IH]; [done |].
  cbn [map]. rewrite !filter_cons, IH.
  case_bool_decide as Hu; simpl; [| done].
  rewrite !decide_False by congruence. done.
Qed.

Lemma mark_read_count d u r :
  notification_count (mark_read_handler d u).1 r = notification_count d r.
Proof.
  unfold notification_count. simpl.
  induction (notifications d) as [| n l IH]; [done |].
  cbn [map]. rewrite !filter_cons.
  assert (Hsame : n_user_id (if bool_decide (n_user_id n = u)
                             then {| n_id := n_id n; n_user_id := n_user_id n;
                                     n_actor_id := n_actor_id n; n_type := n_type n;
                                     n_post_id := n_post_id n; n_is_read := 1;
                                     n_created_at := n_created_at n |}
                             else n) = n_user_id n)
    by (by case_bool_decide).
  rewrite Hsame.
  destruct (decide (n_user_id n = r)); [cbn [length]; f_equal |]; exact IH.
Qed.

(** X16: POST /api/notifications/read marks every notification of the
    account as read and nothing else.  Column by column, in table order: ids,
    recipients, actors, kinds, post references and creation times are what
    they were, and is_read is 1 on the rows of the account and unchanged on
    every other row.  So each of the account's rows is read afterwards, the
    rows of every other account are literally unchanged, the count per account
    is the same, no other table is touched, and a second call changes
    nothing. *)
Theorem mark_read_handler_effect d u :
  let d' := (mark_read_handler d u).1 in
  (n_id <$> notifications d' = n_id <$> notifications d
   ∧ n_user_id <$> notifications d' = n_user_id <$> notifications d
   ∧ n_actor_id <$> notifications d' = n_actor_id <$> notifications d
   ∧ n_type <$> notifications d' = n_type <$> notifications d
   ∧ n_post_id <$> notifications d' = n_post_id <$> notifications d
   ∧ n_created_at <$> notifications d' = n_created_at <$> notifications d
   ∧ n_is_read <$> notifications d'
     = (λ n, if bool_decide (n_user_id n = u) then 1 else n_is_read n)
         <$> notifications d)
  ∧ (∀ n, n ∈ notifications d' → n_user_id n = u → n_is_read n = 1)
  ∧ (∀ r, r ≠ u →
       filter (λ n, n_user_id n = r) (notifications d')
       = filter (λ n, n_user_id n = r) (notifications d))
  ∧ (∀ r, notification_count d' r = notification_count d r)
  ∧ (users d' = users d ∧ posts d' = posts d ∧ posts_seq d' = posts_seq d
     ∧ follows d' = follows d ∧ likes d' = likes d ∧ comments d' = comments d
     ∧ messages d' = messages d)
  ∧ (mark_read_handler d u).2 = json_success
  ∧ (mark_read_handler d' u).1 = d'.
Proof.
  intros d'. split.
  { subst d'. simpl.
    repeat split; apply fmap_map_same; intros n; by case_bool_decide. }
  split.
  { intros n (m & Hm & ->)%mark_read_elem.
    case_bool_decide as Hu; simpl; [done | congruence]. }
  split; [intros r Hne; by apply mark_read_filter |].
  split; [apply mark_read_count |].
  split; [done |]. split; [done |].
  subst d'. unfold mark_read_handler, with_notifications. simpl. f_equal.
  rewrite map_map. apply map_ext. intros n.
  destruct (bool_decide (n_user_id n = u)) eqn:Hu; simpl; by rewrite Hu.
Qed.

(** ** Listing after marking, and below the limit *)

Lemma notifications_handler_elem d u x :
  x ∈ notifications_handler d u → x ∈ notifications_of d u.
Proof.
  unfold notifications_handler. intros Hx.
  rewrite <- (merge_sort_Permutation newer_first (notifications_of d u)).
  rewrite <- (take_drop 50 (merge_sort newer_first (notifications_of d u))).
  apply elem_of_app. by left.
Qed.

Lemma notifications_handler_length d u :
  length (notifications_handler d u)
  = (50 `min` length (notifications_of d u))%nat.
Proof.
  unfold notifications_handler. rewrite length_take.
  by rewrite (Permutation_length (merge_sort_Permutation newer_first _)).
Qed.

Lemma notifications_of_mark_read_length d u r :
  length (notifications_of (mark_read_handler d u).1 r)
  = length (notifications_of d r).
Proof.
  unfold notifications_of. simpl.
  change (get_user (with_notifications d _)) with (get_user d).
  induction (notifications d) as [| n l IH]; [done |].
  cbn [map].
  set (n' := if bool_decide (n_user_id n = u)
             then {| n_id := n_id n; n_user_id := n_user_id n;
                     n_actor_id := n_actor_id n; n_type := n_type n;
                     n_post_id := n_post_id n; n_is_read := 1;
                     n_created_at := n_created_at n |}
             else n).
  assert (Hu' : n_user_id n' = n_user_id n) by (subst n'; by case_bool_decide).
  assert (Ha' : n_actor_id n' = n_actor_id n) by (subst n'; by case_bool_decide).
  clearbody n'. cbn [omap list_omap]. rewrite Hu', Ha'.
  destruct (bool_decide (n_user_id n = r)); [| exact IH].
  destruct (get_user d (n_actor_id n)); simpl; [f_equal |]; exact IH.
Qed.

(** X17: after POST /api/notifications/read for an account, its notification
    listing has no unread row, and it has as many rows as before. *)
Theorem listing_after_mark_read d u :
  let d' := (mark_read_handler d u).1 in
  (∀ x, x ∈ notifications_handler d' u → n_is_read x.1 = 1)
  ∧ length (notifications_handler d' u) = length (notifications_handler d u).
Proof.
  intros d'. split.
  - intros [n a] Hx%notifications_handler_elem.
    apply notifications_of_spec in Hx as (Hn & Hu & _). simpl.
    apply mark_read_elem in Hn as (m & Hm & ->).
    revert Hu. case_bool_decide; [done | by simpl].
  - rewrite !notifications_handler_length. subst d'.
    by rewrite notifications_of_mark_read_length.
Qed.

(** X18: below the limit nothing is left out.  When the actor of every
    notification exists (as in every reachable state with foreign keys
    enforced) and the account has at most 50 notifications, the listing
    contains exactly the account's notification rows. *)
Theorem notifications_handler_complete d u :
  (∀ n, n ∈ notifications d → user_exists d (n_actor_id n) = true) →
  (notification_count d u ≤ 50)%nat →
  (notifications_handler d u).*1
  ≡ₚ filter (λ n, n_user_id n = u) (notifications d).
Proof.
  intros Hactors Hfew.
  pose proof (notifications_of_complete d u Hactors) as Hall.
  unfold notifications_handler. rewrite take_ge.
  - rewrite <- Hall. apply fmap_Permutation, merge_sort_Permutation.
  - rewrite (Permutation_length (merge_sort_Permutation newer_first _)).
    unfold notification_count in Hfew. rewrite <- Hall, length_fmap in Hfew. done.
Qed.

Lemma notifications_handler_complete_witness :
  ((∀ n, n ∈ notifications (follow_handler true 3 two_users 1 2).1 →
         user_exists (follow_handler true 3 two_users 1 2).1 (n_actor_id n) = true)
   ∧ (notification_count (follow_handler true 3 two_users 1 2).1 2 ≤ 50)%nat)
  ∧ (notifications_handler (follow_handler true 3 two_users 1 2).1 2).*1
    ≡ₚ [new_notification 3 two_users 2 1 follow None].
Proof.
  assert (Hactors : ∀ n, n ∈ notifications (follow_handler true 3 two_users 1 2).1 →
            user_exists (follow_handler true 3 two_users 1 2).1 (n_actor_id n) = true).
  { intros n Hn. apply list_elem_of_singleton in Hn. subst n. reflexivity. }
  assert (Hfew : (notification_count (follow_handler true 3 two_users 1 2).1 2 ≤ 50)%nat).
  { vm_compute. lia. }
  split; [done |].
  exact (notifications_handler_complete _ 2 Hactors Hfew).
Defined.

(** ** More on the presence map *)

Lemma Map_get_set_ne k k' v m :
  k ≠ k' → Map_get k' (Map_set k v m) = Map_get k' m.
Proof.
  intros Hne. induction m as [| [k0 v0] m IH]; simpl.
  - by rewrite bool_decide_eq_false_2.
  - destruct (decide (k0 = k)) as [-> | Hk].
    + rewrite bool_decide_eq_true_2 by done. simpl.
      by rewrite !bool_decide_eq_false_2.
    + rewrite (bool_decide_eq_false_2 (k0 = k)) by done. simpl. by rewrite IH.
Qed.

Lemma Map_delete_set_fresh k v m :
  Map_get k m = None → Map_delete k (Map_set k v m) = m.
Proof.
  induction m as [| [k0 v0] m IH]; simpl.
  - intros _. by rewrite bool_decide_eq_true_2.
  - case_bool_decide as Hk; [done |]. intros Hnone. simpl.
    rewrite bool_decide_eq_false_2 by done. by rewrite IH.
Qed.

Lemma Map_set_length k v m :
  length (Map_set k v m)
  = match Map_get k m with Some _ => length m | None => S (length m) end.
Proof.
  induction m as [| [k0 v0] m IH]; simpl; [done |].
  case_bool_decide; simpl; [done |]. rewrite IH. by destruct (Map_get k m).
Qed.

Lemma Map_delete_length k v m :
  Map_get k m = Some v → length (Map_delete k m) = pred (length m).
Proof.
  induction m as [| [k0 v0] m IH]; simpl; [done |].
  case_bool_decide; [done |]. intros Hget. simpl. rewrite IH by done.
  destruct m; [done | done].
Qed.

(** X19: a join registers the account under the joining socket, replacing
    an earlier registration of the same account without adding a second entry,
    leaves the registration of every other account as it was, broadcasts
    user_status online for the account on every call, and does not touch the
    database. *)
Theorem join_handler_effect h u s :
  let s' := (join_handler h u s).1 in
  Map_get u (onlineUsers s') = Some h
  ∧ (∀ u', u' ≠ u → Map_get u' (onlineUsers s') = Map_get u' (onlineUsers s))
  ∧ length (onlineUsers s')
    = match Map_get u (onlineUsers s) with
      | Some _ => length (onlineUsers s)
      | None => S (length (onlineUsers s))
      end
  ∧ (join_handler h u s).2 = [(to_all, user_status u online)]
  ∧ database s' = database s
  ∧ (Map_wf (onlineUsers s) → Map_wf (onlineUsers s')).
Proof.
  intros s'. split; [apply Map_get_set_eq |].
  split; [intros u' Hne; by apply Map_get_set_ne |].
  split; [apply Map_set_length |].
  split; [done |]. split; [done |]. apply Map_wf_set.
Qed.

(** X20: join then disconnect is a round trip.  If the account was not
    registered and the socket held no entry, the registry after the
    disconnect is the one before the join, and offline is broadcast for the
    account. *)
Theorem join_disconnect_round_trip h u s :
  Map_get u (onlineUsers s) = None →
  (∀ u', (u', h) ∉ onlineUsers s) →
  disconnect_handler h (join_handler h u s).1
  = (s, [(to_all, user_status u offline)]).
Proof.
  intros Hnew Hfree. unfold disconnect_handler.
  destruct (find _ (onlineUsers (join_handler h u s).1)) as [[u' v] |] eqn:Hf.
  - apply find_socket_Some in Hf as [Hin ->]. simpl in Hin.
    apply elem_of_Map_set in Hin as [[= ->] | Hin]; [| by apply Hfree in Hin].
    simpl. rewrite Map_delete_set_fresh by done. by destruct s.
  - apply (find_socket_None h _ u) in Hf. exfalso. apply Hf. simpl.
    apply Map_get_Some_elem_of, Map_get_set_eq.
Qed.

Lemma join_disconnect_round_trip_witness :
  (Map_get 1 (onlineUsers bob_online) = None
   ∧ ∀ u', (u', "hA"%string) ∉ onlineUsers bob_online)
  ∧ disconnect_handler "hA" (join_handler "hA" 1 bob_online).1
    = (bob_online, [(to_all, user_status 1 offline)]).
Proof.
  assert (Hfree : ∀ u', (u', "hA"%string) ∉ onlineUsers bob_online).
  { intros u' Hin. simpl in Hin. apply list_elem_of_singleton in Hin. discriminate Hin. }
  split; [split; [reflexivity | exact Hfree] |].
  exact (join_disconnect_round_trip "hA" 1 bob_online eq_refl Hfree).
Defined.

(** X21: a disconnect removes exactly one registry entry, the first one held
    by the socket, and broadcasts offline for that account only; the
    registration of every other account stays, also when it names the socket
    that has just gone. *)
Theorem disconnect_handler_removes_one h s u v :
  Map_wf (onlineUsers s) →
  find (λ e : Z * string, bool_decide (e.2 = h)) (onlineUsers s) = Some (u, v) →
  let s' := (disconnect_handler h s).1 in
  v = h
  ∧ Map_get u (onlineUsers s) = Some h
  ∧ (disconnect_handler h s).2 = [(to_all, user_status u offline)]
  ∧ onlineUsers s' = Map_delete u (onlineUsers s)
  ∧ Map_get u (onlineUsers s') = None
  ∧ length (onlineUsers s') = pred (length (onlineUsers s))
  ∧ (∀ u', u' ≠ u → Map_get u' (onlineUsers s') = Map_get u' (onlineUsers s))
  ∧ database s' = database s.
Proof.
  intros Hwf Hf s'.
  destruct (find_socket_Some _ _ _ _ Hf) as [Hin ->].
  pose proof (Map_get_elem_of _ _ _ Hwf Hin) as Hget.
  subst s'. unfold disconnect_handler. rewrite Hf. simpl.
  split; [done |]. split; [exact Hget |]. split; [done |]. split; [done |].
  split; [by apply Map_get_delete_eq |].
  split; [by apply (Map_delete_length u h) |].
  split; [intros u' Hne; by apply Map_get_delete_ne | done].
Qed.

Lemma disconnect_handler_removes_one_witness :
  (Map_wf (onlineUsers shared_socket)
   ∧ find (λ e : Z * string, bool_decide (e.2 = "h2"%string)) (onlineUsers shared_socket)
     = Some (2, "h2"%string))
  ∧ (disconnect_handler "h2" shared_socket).2 = [(to_all, user_status 2 offline)]
  ∧ Map_get 1 (onlineUsers (disconnect_handler "h2" shared_socket).1)
    = Map_get 1 (onlineUsers shared_socket).
Proof.
  assert (Hwf : Map_wf (onlineUsers shared_socket)).
  { unfold Map_wf. simpl. apply NoDup_cons. split; [| apply NoDup_singleton].
    intros Hin. apply list_elem_of_singleton in Hin. discriminate Hin. }
  split; [split; [exact Hwf | reflexivity] |].
  destruct (disconnect_handler_removes_one "h2" shared_socket 2 "h2" Hwf eq_refl)
    as (_ & _ & Hemit & _ & _ & _ & Hother & _).
  split; [exact Hemit |]. apply Hother. lia.
Defined.

(** ** Delivery and presence together *)

Lemma send_message_handler_ok fk now date sock data s :
  user_exists (database s) (sender_id data) = true →
  user_exists (database s) (receiver_id data) = true →
  let message := {| msg_id := match payload_id data with
                              | Some own => own
                              | None => next_rowid (messages (database s))
                              end;
                    msg_sender_id := sender_id data;
                    msg_receiver_id := receiver_id data;
                    msg_content := content data; msg_created_at := date |} in
  send_message_handler fk now date sock data s
  = Some ({| database :=
               with_messages (database s)
                 (messages (database s) ++
                    [ {| m_id := next_rowid (messages (database s));
                         m_sender_id := sender_id data;
                         m_receiver_id := receiver_id data;
                         m_content := content data; m_is_read := 0;
                         m_created_at := now |} ]);
             onlineUsers := onlineUsers s |},
          match Map_get (receiver_id data) (onlineUsers s) with
          | Some hB => if truthy_string hB
                       then [(to_room hB, new_message message)] else []
          | None => []
          end ++ [(to_socket sock, message_sent message)]).
Proof.
  intros Hs Hr message. unfold send_message_handler.
  by rewrite (insert_message_ok fk now (database s) data Hs Hr).
Qed.

(** X22: pushes follow the latest registration.  After the receiver has
    joined on socket h1 and then on socket h2, a message for it is pushed to
    h2 and to no other socket: no new_message goes to the superseded h1. *)
Theorem send_message_after_rejoin fk now date sock data s h1 h2 :
  user_exists (database s) (sender_id data) = true →
  user_exists (database s) (receiver_id data) = true →
  h2 ≠ ""%string →
  h1 ≠ h2 →
  let s2 := (join_handler h2 (receiver_id data)
               (join_handler h1 (receiver_id data) s).1).1 in
  ∃ s' m,
    send_message_handler fk now date sock data s2
    = Some (s', [ (to_room h2, new_message m); (to_socket sock, message_sent m) ])
    ∧ msg_content m = content data
    ∧ count_events (is_new_message_to h1)
        [ (to_room h2, new_message m); (to_socket sock, message_sent m) ] = 0%nat
    ∧ count_events is_new_message
        [ (to_room h2, new_message m); (to_socket sock, message_sent m) ] = 1%nat.
Proof.
  intros Hs Hr Hne2 Hne s2.
  pose proof (send_message_handler_ok fk now date sock data s2 Hs Hr) as Hrun.
  simpl in Hrun. rewrite Map_set_set, Map_get_set_eq in Hrun.
  assert (Ht : truthy_string h2 = true).
  { unfold truthy_string. by rewrite bool_decide_eq_false_2. }
  rewrite Ht in Hrun. simpl in Hrun.
  eexists _, _. split; [exact Hrun |]. split; [done |].
  unfold count_events. simpl.
  rewrite bool_decide_eq_false_2 by congruence. done.
Qed.

Lemma send_message_after_rejoin_witness :
  (user_exists (database nobody_online) (sender_id hi) = true
   ∧ user_exists (database nobody_online) (receiver_id hi) = true
   ∧ "h2"%string ≠ ""%string ∧ "h1"%string ≠ "h2"%string)
  ∧ ∃ s' m,
      send_message_handler true 9 10 "hA" hi
        (join_handler "h2" 2 (join_handler "h1" 2 nobody_online).1).1
      = Some (s', [ (to_room "h2", new_message m); (to_socket "hA", message_sent m) ])
      ∧ msg_content m = "hi"%string.
Proof.
  assert (H2 : "h2"%string ≠ ""%string) by discriminate.
  assert (H12 : "h1"%string ≠ "h2"%string) by discriminate.
  split; [repeat split; try reflexivity; assumption |].
  destruct (send_message_after_rejoin true 9 10 "hA" hi nobody_online "h1" "h2"
              eq_refl eq_refl H2 H12) as (s' & m & Hrun & Hc & _).
  exists s', m. split; [exact Hrun | exact Hc].
Defined.

(** X23: once the receiver's socket has disconnected, a message for it is
    pushed to nobody but is still persisted and confirmed to the sender.  The
    receiver joins on a socket that holds no other account, the socket
    disconnects, and the send that follows emits message_sent only. *)
Theorem send_message_after_disconnect fk now date sock data s h :
  user_exists (database s) (sender_id data) = true →
  user_exists (database s) (receiver_id data) = true →
  Map_wf (onlineUsers s) →
  (∀ u, (u, h) ∈ onlineUsers s → u = receiver_id data) →
  let s2 := (disconnect_handler h (join_handler h (receiver_id data) s).1).1 in
  ∃ s' m,
    send_message_handler fk now date sock data s2
    = Some (s', [ (to_socket sock, message_sent m) ])
    ∧ msg_content m = content data
    ∧ length (messages (database s')) = S (length (messages (database s)))
    ∧ Map_get (receiver_id data) (onlineUsers s') = None.
Proof.
  intros Hs Hr Hwf Honly s2.
  set (s1 := (join_handler h (receiver_id data) s).1).
  assert (Hwf1 : Map_wf (onlineUsers s1)) by (by apply join_handler_wf).
  assert (Hin1 : (receiver_id data, h) ∈ onlineUsers s1)
    by (apply Map_get_Some_elem_of; simpl; apply Map_get_set_eq).
  assert (Honly1 : ∀ u, (u, h) ∈ onlineUsers s1 → u = receiver_id data).
  { intros u Hu. simpl in Hu.
    apply elem_of_Map_set in Hu as [[= ->] | Hu]; [done | by apply Honly]. }
  destruct (disconnect_handler_owner h (receiver_id data) s1 Hwf1 Hin1 Honly1)
    as [Hdis Hgone].
  assert (Hdb : database s2 = database s) by (subst s2; fold s1; by rewrite Hdis).
  assert (Hg2 : Map_get (receiver_id data) (onlineUsers s2) = None) by exact Hgone.
  pose proof (send_message_handler_ok fk now date sock data s2) as Hrun.
  rewrite Hdb in Hrun. specialize (Hrun Hs Hr). cbv zeta in Hrun.
  rewrite Hg2 in Hrun. simpl in Hrun.
  eexists _, _. split; [exact Hrun |]. split; [done |]. simpl.
  split; [| exact Hg2]. rewrite length_app. simpl. lia.
Qed.

Lemma send_message_after_disconnect_witness :
  (user_exists (database nobody_online) (sender_id hi) = true
   ∧ user_exists (database nobody_online) (receiver_id hi) = true
   ∧ Map_wf (onlineUsers nobody_online)
   ∧ ∀ u, (u, "hB"%string) ∈ onlineUsers nobody_online → u = receiver_id hi)
  ∧ ∃ s' m,
      send_message_handler true 9 10 "hA" hi
        (disconnect_handler "hB" (join_handler "hB" 2 nobody_online).1).1
      = Some (s', [ (to_socket "hA", message_sent m) ])
      ∧ msg_content m = "hi"%string.
Proof.
  assert (Hwf : Map_wf (onlineUsers nobody_online)) by apply NoDup_nil_2.
  assert (Honly : ∀ u, (u, "hB"%string) ∈ onlineUsers nobody_online → u = receiver_id hi).
  { intros u Hu. by apply elem_of_nil in Hu. }
  split; [repeat split; try reflexivity; assumption |].
  destruct (send_message_after_disconnect true 9 10 "hA" hi nobody_online "hB"
              eq_refl eq_refl Hwf Honly) as (s' & m & Hrun & Hc & _).
  exists s', m. split; [exact Hrun | exact Hc].
Defined.



(** ** Several sends in a row *)

Lemma sent_ids_app es1 es2 : sent_ids (es1 ++ es2) = sent_ids es1 ++ sent_ids es2.
Proof. unfold sent_ids. apply omap_app. Qed.

(** X25: messages sent one after the other on a socket are persisted in the
    order of the calls.  When every sender and receiver is an account, the
    run succeeds; the rows it appends carry consecutive ids starting at the
    next free one, the contents and the database clock readings of the calls in
    call order, and the message_sent confirmations come back in the same
    order, each carrying the id of its row unless its payload had an id of its
    own, which it carries instead. *)
Theorem send_all_in_order fk sock sends s :
  (∀ nd, nd ∈ sends →
     user_exists (database s) (sender_id nd.2) = true
     ∧ user_exists (database s) (receiver_id nd.2) = true) →
  ∃ s' es rows,
    send_all fk sock sends s = Some (s', es)
    ∧ messages (database s') = messages (database s) ++ rows
    ∧ m_id <$> rows
      = seqZ (next_rowid (messages (database s))) (Z.of_nat (length sends))
    ∧ m_content <$> rows = (λ nd, content nd.2) <$> sends
    ∧ m_created_at <$> rows = (λ nd, nd.1.1) <$> sends
    ∧ sent_ids es
      = zip_with (λ row nd, match payload_id nd.2 with
                            | Some own => own
                            | None => m_id row
                            end) rows sends
    ∧ ((∀ nd, nd ∈ sends → payload_id nd.2 = None) → sent_ids es = m_id <$> rows)
    ∧ onlineUsers s' = onlineUsers s
    ∧ users (database s') = users (database s).
Proof.
  revert s. induction sends as [| [[now date] data] sends IH]; intros s Hall.
  - exists s, [], []. simpl. rewrite app_nil_r. done.
  - destruct (Hall (now, date, data)) as [Hs Hr]; [left |]. simpl in Hs, Hr.
    pose proof (send_message_handler_ok fk now date sock data s Hs Hr) as Hrun.
    cbv zeta in Hrun.
    set (row := {| m_id := next_rowid (messages (database s));
                   m_sender_id := sender_id data; m_receiver_id := receiver_id data;
                   m_content := content data; m_is_read := 0;
                   m_created_at := now |}) in *.
    set (s1 := {| database := with_messages (database s)
                                (messages (database s) ++ [row]);
                  onlineUsers := onlineUsers s |}) in *.
    set (es1 := _ ++ [(to_socket sock, message_sent _)]) in Hrun.
    destruct (IH s1) as (s' & es2 & rows & Hrest & Hrows & Hids & Hcs & Hts & Hsent
                         & Hplain & Hon & Hus).
    { intros nd Hnd. apply (Hall nd). by right. }
    assert (Hsent1 : sent_ids es1
                     = [match payload_id data with
                        | Some own => own
                        | None => m_id row
                        end]).
    { subst es1. rewrite sent_ids_app.
      destruct (Map_get (receiver_id data) (onlineUsers s)) as [hB |];
        [destruct (truthy_string hB) |]; done. }
    exists s', (es1 ++ es2), (row :: rows).
    cbn [send_all]. rewrite Hrun, Hrest.
    split; [done |].
    split; [rewrite Hrows; simpl; by rewrite <- app_assoc |].
    split.
    { rewrite fmap_cons, Hids. cbn [length]. rewrite Nat2Z.inj_succ.
      rewrite (seqZ_cons _ (Z.succ _)) by lia. simpl. f_equal.
      unfold next_rowid. rewrite length_app. simpl.
      f_equal; lia. }
    split; [by rewrite !fmap_cons, Hcs |].
    split; [by rewrite !fmap_cons, Hts |].
    split; [by rewrite sent_ids_app, Hsent1, Hsent |].
    split; [| done].
    intros Hnone. rewrite sent_ids_app, Hsent1, fmap_cons.
    assert (Hd : payload_id data = None) by (apply (Hnone (now, date, data)); left).
    rewrite Hd. simpl. f_equal.
    apply Hplain. intros nd Hnd. apply Hnone. by right.
Qed.

Lemma send_all_in_order_witness :
  (∀ nd, nd ∈ [(5, 50, hi); (6, 60, hi_with_id)] →
     user_exists (database bob_online) (sender_id nd.2) = true
     ∧ user_exists (database bob_online) (receiver_id nd.2) = true)
  ∧ ∃ s' es rows,
      send_all true "hA" [(5, 50, hi); (6, 60, hi_with_id)] bob_online = Some (s', es)
      ∧ messages (database s') = messages (database bob_online) ++ rows
      ∧ m_id <$> rows = [1; 2]
      ∧ sent_ids es
        = zip_with (λ row nd, match payload_id nd.2 with
                              | Some own => own
                              | None => m_id row
                              end) rows [(5, 50, hi); (6, 60, hi_with_id)].
Proof.
  assert (Hall : ∀ nd, nd ∈ [(5, 50, hi); (6, 60, hi_with_id)] →
            user_exists (database bob_online) (sender_id nd.2) = true
            ∧ user_exists (database bob_online) (receiver_id nd.2) = true).
  { intros nd Hnd. apply elem_of_cons in Hnd as [-> | Hnd]; [by split |].
    apply list_elem_of_singleton in Hnd as ->. by split. }
  split; [exact Hall |].
  destruct (send_all_in_order true "hA" [(5, 50, hi); (6, 60, hi_with_id)]
              bob_online Hall)
    as (s' & es & rows & Hrun & Hrows & Hids & _ & _ & Hsent & _).
  exists s', es, rows. split; [exact Hrun |]. split; [exact Hrows |].
  split; [exact Hids | exact Hsent].
Defined.
